(** * WealthWise: aggregation, advisor and session logic

    A shallow embedding of the computational parts of the personal-finance
    client: the dashboard aggregation (monthly totals, category roll-up,
    six-month series, savings rate), loan and goal progress, the canned
    advisor responder, the entity fetchers and the authentication context.

    Conventions of the embedding.
    - A JavaScript [number] is modelled by [JSNumber.number]: an exact
      rational for every finite value, plus [PosInfinity], [NegInfinity] and
      [NaN].  Rounding of binary64 arithmetic and the sign of zero are
      abstracted away; the propagation of the non-finite values follows
      IEEE 754 as JavaScript implements it.
    - A decimal column of the record store is a rational ([Q]); [Number]
      injects it into [number].
    - A [Date] is modelled by what [getFullYear], [getMonth] (0-based) and
      [getDate] return in the local time zone.
    - React state is explicit: every handler is a function from the
      component state (and the responses it awaits) to the next state. *)

From Stdlib Require Import ZArith QArith Qminmax List String Ascii Bool Lia.
From Stdlib Require Import Permutation Sorted Lqa.
Import ListNotations.

Local Open Scope Z_scope.

(* ------------------------------------------------------------------ *)
(** ** JavaScript numbers *)

Module JSNumber.

Inductive number : Type :=
| Finite (q : Q)
| PosInfinity
| NegInfinity
| NaN.

Definition Qlt_bool (a b : Q) : bool := negb (Qle_bool b a).

Definition zero : number := Finite 0%Q.
Definition hundred : number := Finite 100%Q.

(** [Number(x)] on a decimal value of the store. *)
Definition Number (q : Q) : number := Finite q.

Definition isFinite (n : number) : bool :=
  match n with Finite _ => true | _ => false end.

(** Unary minus. *)
Definition neg (a : number) : number :=
  match a with
  | Finite q => Finite (- q)%Q
  | PosInfinity => NegInfinity
  | NegInfinity => PosInfinity
  | NaN => NaN
  end.

(** [a + b]. *)
Definition add (a b : number) : number :=
  match a, b with
  | NaN, _ | _, NaN => NaN
  | Finite x, Finite y => Finite (x + y)%Q
  | PosInfinity, NegInfinity | NegInfinity, PosInfinity => NaN
  | PosInfinity, _ | _, PosInfinity => PosInfinity
  | NegInfinity, _ | _, NegInfinity => NegInfinity
  end.

(** [a - b]. *)
Definition sub (a b : number) : number := add a (neg b).

(** The infinity carrying the sign of [q], [NaN] when [q] is zero. *)
Definition signedInfinity (q : Q) : number :=
  if Qeq_bool q 0 then NaN
  else if Qlt_bool 0 q then PosInfinity else NegInfinity.

(** [a * b]. *)
Definition mul (a b : number) : number :=
  match a, b with
  | NaN, _ | _, NaN => NaN
  | Finite x, Finite y => Finite (x * y)%Q
  | Finite x, PosInfinity | PosInfinity, Finite x => signedInfinity x
  | Finite x, NegInfinity | NegInfinity, Finite x => signedInfinity (- x)%Q
  | PosInfinity, PosInfinity | NegInfinity, NegInfinity => PosInfinity
  | PosInfinity, NegInfinity | NegInfinity, PosInfinity => NegInfinity
  end.

(** [a / b].  A finite non-zero numerator over zero is an infinity, zero
    over zero is [NaN]. *)
Definition div (a b : number) : number :=
  match a, b with
  | NaN, _ | _, NaN => NaN
  | Finite x, Finite y =>
      if Qeq_bool y 0 then signedInfinity x else Finite (x / y)%Q
  | Finite _, PosInfinity | Finite _, NegInfinity => Finite 0%Q
  | PosInfinity, Finite y =>
      if Qlt_bool y 0 then NegInfinity else PosInfinity
  | NegInfinity, Finite y =>
      if Qlt_bool y 0 then PosInfinity else NegInfinity
  | _, _ => NaN
  end.

(** [a > b]; every comparison with [NaN] is false. *)
Definition gt (a b : number) : bool :=
  match a, b with
  | NaN, _ | _, NaN => false
  | Finite x, Finite y => Qlt_bool y x
  | PosInfinity, PosInfinity => false
  | PosInfinity, _ => true
  | _, NegInfinity => match a with NegInfinity => false | _ => true end
  | _, _ => false
  end.

(** [Math.min(a, b)]. *)
Definition Math_min (a b : number) : number :=
  match a, b with
  | NaN, _ | _, NaN => NaN
  | NegInfinity, _ | _, NegInfinity => NegInfinity
  | PosInfinity, x | x, PosInfinity => x
  | Finite x, Finite y => Finite (if Qle_bool x y then x else y)
  end.

(** Equality of numbers as values: finite values are compared as
    rationals. *)
Definition num_eq (a b : number) : Prop :=
  match a, b with
  | Finite x, Finite y => (x == y)%Q
  | PosInfinity, PosInfinity | NegInfinity, NegInfinity | NaN, NaN => True
  | _, _ => False
  end.

(** The boolean companion of [num_eq]. *)
Definition num_eqb (a b : number) : bool :=
  match a, b with
  | Finite x, Finite y => Qeq_bool x y
  | PosInfinity, PosInfinity | NegInfinity, NegInfinity | NaN, NaN => true
  | _, _ => false
  end.

(** [a <= b] as values; [NaN] is not comparable. *)
Definition le (a b : number) : Prop :=
  match a, b with
  | NaN, _ | _, NaN => False
  | NegInfinity, _ | _, PosInfinity => True
  | Finite x, Finite y => (x <= y)%Q
  | _, _ => False
  end.

(** [lo <= n <= hi], false for the non-finite values. *)
Definition between (lo hi : Q) (n : number) : Prop :=
  match n with
  | Finite q => (lo <= q)%Q /\ (q <= hi)%Q
  | _ => False
  end.

(** [Math.max(a, b)]. *)
Definition Math_max (a b : number) : number :=
  match a, b with
  | NaN, _ | _, NaN => NaN
  | PosInfinity, _ | _, PosInfinity => PosInfinity
  | NegInfinity, x | x, NegInfinity => x
  | Finite x, Finite y => Finite (if Qle_bool x y then y else x)
  end.

(** [Math.max(...values)]: [-Infinity] when there is no value, [NaN] when
    one of the values is [NaN]. *)
Definition Math_max_of (values : list number) : number :=
  fold_left Math_max values NegInfinity.

(** The exact sum of a list of decimals. *)
Definition Qsum (l : list Q) : Q := fold_left Qplus l 0%Q.

End JSNumber.

Import JSNumber.

Declare Scope js_scope.
Delimit Scope js_scope with js.
Infix "+" := add : js_scope.
Infix "-" := sub : js_scope.
Infix "*" := mul : js_scope.
Infix "/" := div : js_scope.
Infix ">" := gt : js_scope.
Infix "=n=" := num_eq (at level 70, no associativity).

(* ------------------------------------------------------------------ *)
(** ** Dates *)

Module Dates.

(** What a [Date] object answers to [getFullYear()], [getMonth()]
    (0 = January) and [getDate()]. *)
Record Date : Type := {
  getFullYear : Z;
  getMonth : Z;
  getDate : Z
}.

(** [new Date(year, monthIndex, 1)].  The month index may lie outside
    0..11 and is carried into the year; a year in 0..99 is read as
    1900 + year, as the constructor does. *)
Definition newDate (year monthIndex : Z) : Date :=
  let yr := if (0 <=? year) && (year <=? 99) then 1900 + year else year in
  {| getFullYear := yr + monthIndex / 12;
     getMonth := monthIndex mod 12;
     getDate := 1 |}.

(** The short English name of the month numbered [monthNum]. *)
Definition shortName (monthNum : Z) : string :=
  nth (Z.to_nat monthNum)
      ["Jan"; "Feb"; "Mar"; "Apr"; "May"; "Jun";
       "Jul"; "Aug"; "Sep"; "Oct"; "Nov"; "Dec"]%string
      "Invalid Date"%string.

(** [d.toLocaleDateString('en-US', { month: 'short' })]. *)
Definition monthShort (d : Date) : string := shortName (getMonth d).

(** Strict chronological order on calendar dates. *)
Definition ltb (a b : Date) : bool :=
  (getFullYear a <? getFullYear b)
  || ((getFullYear a =? getFullYear b)
      && ((getMonth a <? getMonth b)
          || ((getMonth a =? getMonth b) && (getDate a <? getDate b)))).

(** Number of the calendar month counted from year 0. *)
Definition monthIndex (year monthNum : Z) : Z := year * 12 + monthNum.

(** The calendar month, as (year, month number), that lies [k] months
    before the month of [now]. *)
Definition monthsBefore (now : Date) (k : Z) : Z * Z :=
  let idx := monthIndex (getFullYear now) (getMonth now) - k in
  (idx / 12, idx mod 12).

(** A date-only string ['YYYY-MM-DD'] as an [<input type="date">] writes
    it: its year, its month (1 = January) and its day. *)
Record DateOnly : Type := {
  isoYear : Z;
  isoMonth : Z;
  isoDay : Z
}.

Definition isLeapYear (year : Z) : bool :=
  ((year mod 4 =? 0) && negb (year mod 100 =? 0)) || (year mod 400 =? 0).

(** The number of days of the month numbered [monthNum] (0 = January). *)
Definition daysInMonth (year monthNum : Z) : Z :=
  if monthNum =? 1 then (if isLeapYear year then 29 else 28)
  else if (monthNum =? 3) || (monthNum =? 5) || (monthNum =? 8)
          || (monthNum =? 10)
  then 30 else 31.

(** [new Date(s)] for a date-only string [s], as [getFullYear], [getMonth]
    and [getDate] read it.  The string denotes midnight UTC of its day;
    in a time zone behind UTC that instant belongs to the day before,
    in every other time zone to the day itself. *)
Definition parseDateOnly (behindUTC : bool) (s : DateOnly) : Date :=
  let monthNum := isoMonth s - 1 in
  if negb behindUTC
  then {| getFullYear := isoYear s; getMonth := monthNum;
          getDate := isoDay s |}
  else if 1 <? isoDay s
  then {| getFullYear := isoYear s; getMonth := monthNum;
          getDate := isoDay s - 1 |}
  else if 0 <? monthNum
  then {| getFullYear := isoYear s; getMonth := monthNum - 1;
          getDate := daysInMonth (isoYear s) (monthNum - 1) |}
  else {| getFullYear := isoYear s - 1; getMonth := 11; getDate := 31 |}.

End Dates.

Import Dates.

(* ------------------------------------------------------------------ *)
(** ** Arrays *)

Module JSArray.

Section Sort.
Context {A : Type}.

(** [after x y]: the element [x] has to be placed behind [y]. *)
Variable after : A -> A -> bool.

Fixpoint insert (x : A) (l : list A) : list A :=
  match l with
  | [] => [x]
  | y :: l' => if after x y then y :: insert x l' else x :: y :: l'
  end.

(** A stable sort: elements that need not be exchanged keep their
    order. *)
Fixpoint stable_sort (l : list A) : list A :=
  match l with
  | [] => []
  | x :: l' => insert x (stable_sort l')
  end.
End Sort.

(** [arr.sort(compareFn)].  [Array.prototype.sort] is stable, and
    [compareFn(x, y) > 0] asks for [x] behind [y]; a [NaN] answer counts
    as 0. *)
Definition sort {A : Type} (compareFn : A -> A -> number) (arr : list A)
  : list A :=
  stable_sort (fun x y => (compareFn x y > zero)%js) arr.

(** [x] occurs in [l] at a position before an occurrence of [y]. *)
Definition precedes {A : Type} (x y : A) (l : list A) : Prop :=
  exists l1 l2 l3, l = l1 ++ x :: l2 ++ y :: l3.

(** [arr.slice(0, n)]. *)
Definition slice0 {A : Type} (n : nat) (arr : list A) : list A := firstn n arr.

End JSArray.

(* ------------------------------------------------------------------ *)
(** ** Record store access *)

Module Supabase.

(** The answer of a query: [{ data, error }]; [data] is [null] when the
    store reports an error. *)
Record PostgrestResponse (A : Type) : Type := {
  data : option A;
  error : option string
}.
Arguments data {A} _.
Arguments error {A} _.

(** A settled promise. *)
Inductive Promise (A : Type) : Type :=
| Fulfilled (value : A)
| Rejected (reason : string).
Arguments Fulfilled {A} _.
Arguments Rejected {A} _.

Definition ok {A : Type} (rows : A) : Promise (PostgrestResponse A) :=
  Fulfilled {| data := Some rows; error := None |}.

Definition failed {A : Type} (msg : string) : Promise (PostgrestResponse A) :=
  Fulfilled {| data := None; error := Some msg |}.

(** The read of a query fails with [e]: the promise is rejected, or the
    store answers with an error. *)
Definition readFails {A : Type} (p : Promise (PostgrestResponse A))
  (e : string) : Prop :=
  p = Rejected e \/ exists d, p = Fulfilled {| data := d; error := Some e |}.

(** [.limit(n)]. *)
Definition limit {A : Type} (n : nat) (rows : list A) : list A := firstn n rows.

End Supabase.

Import Supabase.

(* ------------------------------------------------------------------ *)
(** ** Handlers: state, exceptions, [await] *)

Module Effects.

(** How a block of statements completes. *)
Inductive completion (A : Type) : Type :=
| Normal (value : A)
| Throw (err : string).
Arguments Normal {A} _.
Arguments Throw {A} _.

(** One line of the diagnostic channel: [console.error(label, err)]. *)
Definition logline : Type := (string * string)%type.

Section Handler.
(** The component state the handler works on. *)
Variable S : Type.

Definition M (A : Type) : Type := S -> completion A * S.

Definition ret {A : Type} (a : A) : M A := fun s => (Normal a, s).

Definition bind {A B : Type} (m : M A) (k : A -> M B) : M B :=
  fun s =>
    match m s with
    | (Normal a, s') => k a s'
    | (Throw e, s') => (Throw e, s')
    end.

Definition throw {A : Type} (e : string) : M A := fun s => (Throw e, s).

(** A state setter ([setLoading], [setAccounts], ...). *)
Definition modify (f : S -> S) : M unit := fun s => (Normal tt, f s).

(** [await p]: the value of a fulfilled promise; a rejected one throws
    its reason. *)
Definition await {A : Type} (p : Promise A) : M A :=
  match p with
  | Fulfilled v => ret v
  | Rejected e => throw e
  end.

(** [try { body } catch (error) { handler } finally { fin }]. *)
Definition try_catch_finally (body : M unit) (handler : string -> M unit)
  (fin : M unit) : M unit :=
  fun s =>
    let '(c, s1) :=
      match body s with
      | (Normal v, s1) => (Normal v, s1)
      | (Throw e, s1) => handler e s1
      end in
    match fin s1 with
    | (Normal _, s2) => (c, s2)
    | (Throw e, s2) => (Throw e, s2)
    end.

(** [try { body } catch (error) { handler }]. *)
Definition try_catch (body : M unit) (handler : string -> M unit)
  : M unit :=
  try_catch_finally body handler (ret tt).
End Handler.

Arguments ret {S A} _.
Arguments bind {S A B} _ _.
Arguments throw {S A} _.
Arguments modify {S} _.
Arguments await {S A} _.
Arguments try_catch_finally {S} _ _ _.
Arguments try_catch {S} _ _.

(** [Promise.all] of two promises: rejected as soon as one of them is. *)
Definition Promise_all2 {A B : Type} (p : Promise A) (q : Promise B)
  : Promise (A * B) :=
  match p, q with
  | Fulfilled a, Fulfilled b => Fulfilled (a, b)
  | Rejected e, _ => Rejected e
  | _, Rejected e => Rejected e
  end.

End Effects.

Import Effects.

Declare Scope handler_scope.
Delimit Scope handler_scope with handler.
Notation "x <- m ;; k" := (bind m (fun x => k))
  (at level 61, m at next level, right associativity) : handler_scope.
Notation "m ;; k" := (bind m (fun _ => k))
  (at level 61, right associativity) : handler_scope.

(* ------------------------------------------------------------------ *)
(** ** Authentication context *)

Module Auth.

Record User : Type := {
  id : string;
  name : string
}.

(** The state of [AuthProvider]. *)
Record State : Type := {
  user : option User;
  loading : bool
}.

(** [useState<User | null>(null)], [useState(true)]. *)
Definition initial : State := {| user := None; loading := true |}.

Definition setUser (u : option User) (s : State) : State :=
  {| user := u; loading := loading s |}.

Definition setLoading (b : bool) (s : State) : State :=
  {| user := user s; loading := b |}.

(** [login = (name) => setUser({ id: "1", name })]. *)
Definition login (name : string) (s : State) : State :=
  setUser (Some {| id := "1"; name := name |}) s.

(** [logout = () => setUser(null)]. *)
Definition logout (s : State) : State := setUser None s.

(** The operations that change the context: the two it exports and the
    timer of its effect, [setTimeout(() => setLoading(false), 500)]. *)
Inductive operation : Type :=
| Login (name : string)
| Logout
| TimerFired.

Definition step (s : State) (op : operation) : State :=
  match op with
  | Login name => login name s
  | Logout => logout s
  | TimerFired => setLoading false s
  end.

Definition run (ops : list operation) : State := fold_left step ops initial.

(** The invariant of the context: the identifier of the signed-in user,
    when there is one, is ["1"]. *)
Definition identified (s : State) : Prop :=
  forall u, user s = Some u -> id u = "1"%string.

(** The operation is the firing of the timer. *)
Definition isTimer (op : operation) : bool :=
  match op with TimerFired => true | _ => false end.

End Auth.

(* ------------------------------------------------------------------ *)
(** ** The session the views see *)

Module Session.

(** Modelled from the spec: the user that [useAuth()] of
    [../contexts/AuthContext] hands to the views.  That module, which
    the views and the layout import, is not among the sources.  By the
    spec, "authentication produces an opaque user identifier consumed by
    every fetch": the user of a view is given by an identifier, and the
    views read nothing else of it. *)
Definition user (identifier : string) : option Auth.User :=
  Some {| Auth.id := identifier; Auth.name := EmptyString |}.

End Session.

(* ------------------------------------------------------------------ *)
(** ** Views over one collection *)

(** The accounts, loans, goals and credit-score views load their
    collection with the same handler up to the name of the collection
    and the text of the diagnostic. *)
Module EntityView.

Section View.
(** The rows of the collection. *)
Context {A : Type}.

Record State : Type := {
  items : list A;
  loading : bool;
  console : list logline
}.

(** [useState<A[]>([])], [useState(true)]. *)
Definition initial : State :=
  {| items := []; loading := true; console := [] |}.

Definition setItems (v : list A) : M State unit :=
  modify (fun s =>
    {| items := v; loading := loading s; console := console s |}).

Definition setLoading (b : bool) : M State unit :=
  modify (fun s =>
    {| items := items s; loading := b; console := console s |}).

Definition console_error (label err : string) : M State unit :=
  modify (fun s =>
    {| items := items s; loading := loading s;
       console := console s ++ [(label, err)] |}).

(** The answer of the store to the query of the view, by the
    identifier the query filters on. *)
Definition query : Type := string -> Promise (PostgrestResponse (list A)).

(**
<<
  if (!user) return;
  try {
    const { data, error } = await supabase.from(...).select('*')
      .eq('user_id', user.id).order(...);
    if (error) throw error;
    setItems(data || []);
  } catch (error) {
    console.error(label, error);
  } finally {
    setLoading(false);
  }
>> *)
Definition load (label : string) (user : option Auth.User) (q : query)
  : M State unit :=
  match user with
  | None => ret tt
  | Some u =>
      try_catch_finally
        (r <- await (q (Auth.id u)) ;;
         match error r with
         | Some e => throw e
         | None => ret tt
         end ;;
         setItems (match data r with Some rows => rows | None => [] end)
        )%handler
        (fun e => console_error label e)
        (setLoading false)
  end.
End View.

Arguments State A : clear implicits.

End EntityView.

(** ** Accounts view *)

Module Accounts.

Record Account : Type := {
  id : string;
  user_id : string;
  account_name : string;
  account_type : string;
  institution : option string;
  balance : Q;
  is_manual : bool
}.

Definition State : Type := EntityView.State Account.

Definition accounts (s : State) : list Account := EntityView.items s.

Definition loadAccounts
  : option Auth.User -> EntityView.query -> M State unit :=
  EntityView.load "Error loading accounts:".

(** [accounts.reduce((sum, acc) => sum + Number(acc.balance), 0)]. *)
Definition totalBalance (accounts : list Account) : number :=
  fold_left (fun sum acc => (sum + Number (balance acc))%js) accounts zero.

End Accounts.

(* ------------------------------------------------------------------ *)
(** ** Loans view *)

Module Loans.

Record Loan : Type := {
  id : string;
  loan_name : string;
  loan_type : string;
  principal_amount : Q;
  current_balance : Q;
  interest_rate : Q;
  monthly_payment : Q
}.

(** [calculateProgress(current, principal)]:
    [paid = principal - current; return (paid / principal) * 100]. *)
Definition calculateProgress (current principal : number) : number :=
  let paid := (principal - current)%js in
  ((paid / principal) * hundred)%js.

(** The call site:
    [calculateProgress(Number(loan.current_balance),
                       Number(loan.principal_amount))]. *)
Definition progress (loan : Loan) : number :=
  calculateProgress (Number (current_balance loan))
                    (Number (principal_amount loan)).

Definition State : Type := EntityView.State Loan.

Definition loans (s : State) : list Loan := EntityView.items s.

Definition loadLoans
  : option Auth.User -> EntityView.query -> M State unit :=
  EntityView.load "Error loading loans:".

(** [calculateMonthsRemaining(endDate)] on the date-only string of
    [loan.end_date], with the clock reading [now = new Date()] and
    whether the local time zone is behind UTC:
<<
    const end = new Date(endDate);
    const months = (end.getFullYear() - now.getFullYear()) * 12
                   + (end.getMonth() - now.getMonth());
    return Math.max(0, months);
>> *)
Definition calculateMonthsRemaining (now : Date) (behindUTC : bool)
  (endDate : DateOnly) : Z :=
  let end_ := parseDateOnly behindUTC endDate in
  let months :=
    (getFullYear end_ - getFullYear now) * 12
    + (getMonth end_ - getMonth now) in
  Z.max 0 months.

(** [loans.reduce((sum, loan) => sum + Number(loan.current_balance), 0)]. *)
Definition totalDebt (loans : list Loan) : number :=
  fold_left (fun sum loan => (sum + Number (current_balance loan))%js)
            loans zero.

(** [loans.reduce((sum, loan) => sum + Number(loan.monthly_payment), 0)]. *)
Definition totalMonthlyPayments (loans : list Loan) : number :=
  fold_left (fun sum loan => (sum + Number (monthly_payment loan))%js)
            loans zero.

End Loans.

(* ------------------------------------------------------------------ *)
(** ** Goals view *)

Module Goals.

Record Goal : Type := {
  id : string;
  goal_name : string;
  goal_type : string;
  target_amount : Q;
  current_amount : Q
}.

(** [calculateProgress(current, target)]:
    [Math.min((current / target) * 100, 100)]. *)
Definition calculateProgress (current target : number) : number :=
  Math_min ((current / target) * hundred)%js hundred.

(** The call site:
    [calculateProgress(Number(goal.current_amount),
                       Number(goal.target_amount))]. *)
Definition progress (goal : Goal) : number :=
  calculateProgress (Number (current_amount goal))
                    (Number (target_amount goal)).

Definition State : Type := EntityView.State Goal.

Definition goals (s : State) : list Goal := EntityView.items s.

Definition loadGoals
  : option Auth.User -> EntityView.query -> M State unit :=
  EntityView.load "Error loading goals:".

(** [remaining = Number(goal.target_amount) - Number(goal.current_amount)]. *)
Definition remaining (goal : Goal) : number :=
  (Number (target_amount goal) - Number (current_amount goal))%js.

End Goals.

(* ------------------------------------------------------------------ *)
(** ** Credit-score view *)

Module CreditScore.

Record CreditScoreEntry : Type := {
  id : string;
  score : Z;
  score_date : Date;
  provider : string
}.

Definition State : Type := EntityView.State CreditScoreEntry.

Definition scores (s : State) : list CreditScoreEntry := EntityView.items s.

Definition loadScores
  : option Auth.User -> EntityView.query -> M State unit :=
  EntityView.load "Error loading credit scores:".

Record Rating : Type := {
  label : string;
  color : string;
  bg : string
}.

(** [getScoreRating(score)]: the chain of [if (score >= ...) return ...]. *)
Definition getScoreRating (score : Z) : Rating :=
  if 800 <=? score
  then {| label := "Exceptional"; color := "text-green-600";
          bg := "bg-green-100" |}
  else if 740 <=? score
  then {| label := "Very Good"; color := "text-blue-600";
          bg := "bg-blue-100" |}
  else if 670 <=? score
  then {| label := "Good"; color := "text-teal-600"; bg := "bg-teal-100" |}
  else if 580 <=? score
  then {| label := "Fair"; color := "text-yellow-600";
          bg := "bg-yellow-100" |}
  else {| label := "Poor"; color := "text-red-600"; bg := "bg-red-100" |}.

Record Trend : Type := {
  diff : Z;
  isPositive : bool
}.

(** [getScoreTrend()]:
<<
    if (scores.length < 2) return null;
    const latest = scores[0].score;
    const previous = scores[1].score;
    const diff = latest - previous;
    return { diff, isPositive: diff >= 0 };
>> *)
Definition getScoreTrend (scores : list CreditScoreEntry) : option Trend :=
  match scores with
  | latest :: previous :: _ =>
      let diff := score latest - score previous in
      Some {| diff := diff; isPositive := 0 <=? diff |}
  | _ => None
  end.

(** [scores.length > 0 ? scores[0].score : null]. *)
Definition currentScore (scores : list CreditScoreEntry) : option Z :=
  match scores with
  | entry :: _ => Some (score entry)
  | [] => None
  end.

(** The condition [currentScore ? ... : ...]: [null] and [0] are falsy. *)
Definition truthy (currentScore : option Z) : bool :=
  match currentScore with
  | Some s => negb (s =? 0)
  | None => false
  end.

(** [currentScore ? getScoreRating(currentScore) : null]. *)
Definition rating (scores : list CreditScoreEntry) : option Rating :=
  match currentScore scores with
  | Some s => if truthy (Some s) then Some (getScoreRating s) else None
  | None => None
  end.

(** The position of the marker on the scale, in percent:
    [((currentScore - 300) / 550) * 100]. *)
Definition markerLeft (currentScore : Z) : number :=
  (((Number (inject_Z currentScore) - Finite 300) / Finite 550)
   * hundred)%js.

End CreditScore.

(* ------------------------------------------------------------------ *)
(** ** Transactions view *)

Module Transactions.

(** A row of the [transactions] collection, as [select('*')] returns it;
    [transaction_date] stands for [new Date(t.transaction_date)]. *)
Record Transaction : Type := {
  id : string;
  user_id : string;
  category : string;
  amount : Q;
  transaction_type : string;
  transaction_date : Date;
  description : option string
}.

(** The [id, account_name] projection of an account. *)
Record Account : Type := {
  account_id : string;
  account_name : string
}.

Record State : Type := {
  transactions : list Transaction;
  accounts : list Account;
  loading : bool;
  console : list logline
}.

Definition initial : State :=
  {| transactions := []; accounts := []; loading := true; console := [] |}.

Definition setTransactions (v : list Transaction) : M State unit :=
  modify (fun s =>
    {| transactions := v; accounts := accounts s;
       loading := loading s; console := console s |}).

Definition setAccounts (v : list Account) : M State unit :=
  modify (fun s =>
    {| transactions := transactions s; accounts := v;
       loading := loading s; console := console s |}).

Definition setLoading (b : bool) : M State unit :=
  modify (fun s =>
    {| transactions := transactions s; accounts := accounts s;
       loading := b; console := console s |}).

Definition console_error (label err : string) : M State unit :=
  modify (fun s =>
    {| transactions := transactions s; accounts := accounts s;
       loading := loading s; console := console s ++ [(label, err)] |}).

(**
<<
    if (!user) return;
    try {
      const [transactionsRes, accountsRes] = await Promise.all([...]);
      setTransactions(transactionsRes.data || []);
      setAccounts(accountsRes.data || []);
    } catch (error) {
      console.error('Error loading transactions:', error);
    } finally {
      setLoading(false);
    }
>> *)
Definition loadData (user : option Auth.User)
  (transactionsQ : string -> Promise (PostgrestResponse (list Transaction)))
  (accountsQ : string -> Promise (PostgrestResponse (list Account)))
  : M State unit :=
  match user with
  | None => ret tt
  | Some u =>
      try_catch_finally
        (res <- await (Promise_all2 (transactionsQ (Auth.id u))
                                    (accountsQ (Auth.id u))) ;;
         let '(transactionsRes, accountsRes) := res in
         setTransactions
           (match data transactionsRes with Some r => r | None => [] end) ;;
         setAccounts
           (match data accountsRes with Some r => r | None => [] end)
        )%handler
        (fun e => console_error "Error loading transactions:" e)
        (setLoading false)
  end.

(** [transactions.filter((t) => filterType === 'all'
                                || t.transaction_type === filterType)]. *)
Definition filteredTransactions (transactions : list Transaction)
  (filterType : string) : list Transaction :=
  filter (fun t => String.eqb filterType "all"
                   || String.eqb (transaction_type t) filterType)
         transactions.

End Transactions.

(* ------------------------------------------------------------------ *)
(** ** Dashboard *)

Module Dashboard.

Import Transactions (Transaction, id, user_id, category, amount,
                     transaction_type, transaction_date, description).

Record CategoryTotal : Type := {
  cat : string;          (* field [category] of the roll-up entry *)
  total : number
}.

Record MonthRef : Type := {
  month : string;
  monthNum : Z;
  year : Z
}.

Record MonthEntry : Type := {
  entry_month : string;  (* field [month] of the series entry *)
  income : number;
  expenses : number
}.

(** [.eq('user_id', uid)] on the transactions collection. *)
Definition eq_user_id (uid : string) (rows : list Transaction)
  : list Transaction :=
  filter (fun r => String.eqb (user_id r) uid) rows.

(** [.order('transaction_date', { ascending: false })]; rows of the same
    date keep the order of the collection. *)
Definition order_transaction_date_desc (rows : list Transaction)
  : list Transaction :=
  JSArray.stable_sort
    (fun x y => Dates.ltb (transaction_date x) (transaction_date y)) rows.

(** The transactions query of the dashboard:
    [from('transactions').select('*').eq('user_id', user.id)
       .order('transaction_date', { ascending: false }).limit(10)]. *)
Definition transactionsQuery (table : list Transaction) (uid : string)
  : list Transaction :=
  limit 10 (order_transaction_date_desc (eq_user_id uid table)).

(** [tDate.getMonth() === monthNum && tDate.getFullYear() === year]. *)
Definition inMonth (monthNum year : Z) (t : Transaction) : bool :=
  (getMonth (transaction_date t) =? monthNum)
  && (getFullYear (transaction_date t) =? year).

(** [t.transaction_type === ty]. *)
Definition hasType (ty : string) (t : Transaction) : bool :=
  String.eqb (transaction_type t) ty.

(** [.reduce((sum, t) => sum + Number(t.amount), 0)]. *)
Definition sumAmount (ts : list Transaction) : number :=
  fold_left (fun sum t => (sum + Number (amount t))%js) ts zero.

(** [transactionsRes.data || []]. *)
Definition rowsOf (data : option (list Transaction)) : list Transaction :=
  match data with
  | Some rows => rows
  | None => []
  end.

(** [transactionsRes.data?.filter(pred) || []]. *)
Definition filterData (pred : Transaction -> bool)
  (data : option (list Transaction)) : list Transaction :=
  match data with
  | Some rows => filter pred rows
  | None => []
  end.

(** The rows dated in the month and year of [now]. *)
Definition currentMonthTransactions (data : option (list Transaction))
  (now : Date) : list Transaction :=
  let currentMonth := getMonth now in
  let currentYear := getFullYear now in
  filterData (inMonth currentMonth currentYear) data.

Definition monthlyIncome (currentMonthTransactions : list Transaction)
  : number :=
  sumAmount (filter (hasType "income") currentMonthTransactions).

Definition monthlyExpenses (currentMonthTransactions : list Transaction)
  : number :=
  sumAmount (filter (hasType "expense") currentMonthTransactions).

(** One step of the grouping reduction: [acc.find] the entry of the
    category and add to its total, or [acc.push] a new entry. *)
Fixpoint addToCategory (acc : list CategoryTotal) (c : string) (a : number)
  : list CategoryTotal :=
  match acc with
  | [] => [{| cat := c; total := a |}]
  | existing :: rest =>
      if String.eqb (cat existing) c
      then {| cat := cat existing; total := (total existing + a)%js |} :: rest
      else existing :: addToCategory rest c a
  end.

(** [.reduce((acc, t) => { ...; return acc; }, [])] over the expense
    transactions. *)
Definition groupByCategory (ts : list Transaction) : list CategoryTotal :=
  fold_left (fun acc t => addToCategory acc (category t) (Number (amount t)))
            ts [].

(** The categories of a list in the order of their first occurrence. *)
Fixpoint firstSeen (categories : list string) : list string :=
  match categories with
  | [] => []
  | c :: rest =>
      c :: filter (fun d => negb (String.eqb d c)) (firstSeen rest)
  end.

(** The sum of the amounts of the transactions of category [c]. *)
Definition categorySum (c : string) (ts : list Transaction) : Q :=
  fold_left Qplus
    (map amount (filter (fun t => String.eqb (category t) c) ts)) 0%Q.

(** [(a, b) => b.total - a.total]. *)
Definition compareTotal (a b : CategoryTotal) : number :=
  (total b - total a)%js.

(** [x] is placed behind [y] by [sort(compareTotal)]. *)
Definition behind (x y : CategoryTotal) : bool :=
  (compareTotal x y > zero)%js.

(** Descending totals: [x] may stand before [y]. *)
Definition descending (x y : CategoryTotal) : Prop := le (total y) (total x).

(** The total of the group is a finite number. *)
Definition finiteTotal (g : CategoryTotal) : Prop :=
  exists q, total g = Finite q.

(** [.filter(expense).reduce(group, []).sort(compareTotal).slice(0, 5)]. *)
Definition expensesByCategory (currentMonthTransactions : list Transaction)
  : list CategoryTotal :=
  JSArray.slice0 5
    (JSArray.sort compareTotal
       (groupByCategory
          (filter (hasType "expense") currentMonthTransactions))).

(** [Array.from({ length: 6 }, (_, i) => ...)]. *)
Definition last6Months (now : Date) : list MonthRef :=
  let currentMonth := getMonth now in
  let currentYear := getFullYear now in
  map (fun i =>
         let d := newDate currentYear (currentMonth - (5 - i)) in
         {| month := monthShort d;
            monthNum := getMonth d;
            year := getFullYear d |})
      [0; 1; 2; 3; 4; 5].

Definition incomeVsExpenses (data : option (list Transaction)) (now : Date)
  : list MonthEntry :=
  map (fun m =>
         let monthTransactions :=
           filterData (inMonth (monthNum m) (year m)) data in
         {| entry_month := month m;
            income := sumAmount (filter (hasType "income") monthTransactions);
            expenses :=
              sumAmount (filter (hasType "expense") monthTransactions) |})
      (last6Months now).

(** The entry of the series for one calendar month: its short name and
    the sums of the income and of the expense transactions dated in it. *)
Definition seriesEntry (data : option (list Transaction)) (ym : Z * Z)
  : MonthEntry :=
  let '(y, m) := ym in
  {| entry_month := shortName m;
     income := sumAmount (filter (hasType "income")
                            (filterData (inMonth m y) data));
     expenses := sumAmount (filter (hasType "expense")
                              (filterData (inMonth m y) data)) |}.

(** [data.monthlyIncome > 0
       ? ((data.monthlyIncome - data.monthlyExpenses) / data.monthlyIncome) * 100
       : 0]. *)
Definition savingsRate (monthlyIncome monthlyExpenses : number) : number :=
  if (monthlyIncome > zero)%js
  then (((monthlyIncome - monthlyExpenses) / monthlyIncome) * hundred)%js
  else zero.

(** [Promise.all] of the five queries of the dashboard. *)
Definition Promise_all5 {A B C D E : Type}
  (p1 : Promise A) (p2 : Promise B) (p3 : Promise C) (p4 : Promise D)
  (p5 : Promise E) : Promise (A * B * C * D * E) :=
  Promise_all2 (Promise_all2 (Promise_all2 (Promise_all2 p1 p2) p3) p4) p5.

(** [x || 0] on an optional number: [undefined], [0] and [NaN] are
    falsy. *)
Definition orZero (x : option number) : number :=
  match x with
  | None => zero
  | Some NaN => zero
  | Some (Finite q) => if Qeq_bool q 0 then zero else Finite q
  | Some n => n
  end.

(** [.reduce((sum, x) => sum + Number(x.field), 0)] over the projected
    column of the accounts and loans queries. *)
Definition sumColumn (column : list Q) : number :=
  fold_left (fun sum x => (sum + Number x)%js) column zero.

Module Data.
Record DashboardData : Type := {
  totalBalance : number;
  monthlyIncome : number;
  monthlyExpenses : number;
  totalLoans : number;
  activeGoals : nat;
  recentTransactions : list Transaction;
  expensesByCategory : list CategoryTotal;
  incomeVsExpenses : list MonthEntry
}.
End Data.

Record State : Type := {
  data : Data.DashboardData;
  loading : bool;
  console : list logline
}.

Definition initial : State :=
  {| data := {| Data.totalBalance := zero;
                Data.monthlyIncome := zero;
                Data.monthlyExpenses := zero;
                Data.totalLoans := zero;
                Data.activeGoals := 0%nat;
                Data.recentTransactions := [];
                Data.expensesByCategory := [];
                Data.incomeVsExpenses := [] |};
     loading := true;
     console := [] |}.

Definition setData (d : Data.DashboardData) : M State unit :=
  modify (fun s => {| data := d; loading := loading s; console := console s |}).

Definition setLoading (b : bool) : M State unit :=
  modify (fun s => {| data := data s; loading := b; console := console s |}).

Definition console_error (label err : string) : M State unit :=
  modify (fun s =>
    {| data := data s; loading := loading s;
       console := console s ++ [(label, err)] |}).

(** The answers of the store to the five queries, by the identifier the
    queries filter on. *)
Record Queries : Type := {
  accountsQ : string -> Promise (PostgrestResponse (list Q));
  transactionsQ : string -> Promise (PostgrestResponse (list Transaction));
  loansQ : string -> Promise (PostgrestResponse (list Q));
  goalsQ : string -> Promise (PostgrestResponse (list string));
  profileQ : string -> Promise (PostgrestResponse (option Q))
}.

(** The awaited [Promise.all([...])] of [loadDashboardData]. *)
Definition allQueries (q : Queries) (uid : string) :=
  Promise_all5 (accountsQ q uid) (transactionsQ q uid) (loansQ q uid)
               (goalsQ q uid) (profileQ q uid).

(** [loadDashboardData], with the clock reading [now = new Date()]. *)
Definition loadDashboardData (user : option Auth.User) (now : Date)
  (q : Queries) : M State unit :=
  match user with
  | None => ret tt
  | Some u =>
      try_catch_finally
        (res <- await (allQueries q (Auth.id u)) ;;
         let '(accountsRes, transactionsRes, loansRes, goalsRes, profileRes) :=
           res in
         let totalBalance :=
           orZero (option_map sumColumn (Supabase.data accountsRes)) in
         let totalLoans :=
           orZero (option_map sumColumn (Supabase.data loansRes)) in
         let activeGoals :=
           match Supabase.data goalsRes with
           | Some rows => List.length rows
           | None => 0%nat
           end in
         let currentMonthTransactions :=
           currentMonthTransactions (Supabase.data transactionsRes) now in
         setData
           {| Data.totalBalance := totalBalance;
              Data.monthlyIncome := monthlyIncome currentMonthTransactions;
              Data.monthlyExpenses := monthlyExpenses currentMonthTransactions;
              Data.totalLoans := totalLoans;
              Data.activeGoals := activeGoals;
              Data.recentTransactions :=
                rowsOf (Supabase.data transactionsRes);
              Data.expensesByCategory :=
                expensesByCategory currentMonthTransactions;
              Data.incomeVsExpenses :=
                incomeVsExpenses (Supabase.data transactionsRes) now |}
        )%handler
        (fun e => console_error "Error loading dashboard:" e)
        (setLoading false)
  end.

(** The sum of [amount] over all transactions of the user [uid] that are
    dated in the month of [now] and have the type [ty]. *)
Definition userMonthTotal (table : list Transaction) (uid : string)
  (now : Date) (ty : string) : number :=
  sumAmount
    (filter (fun t => inMonth (getMonth now) (getFullYear now) t
                      && hasType ty t)
            (eq_user_id uid table)).

(** The store behind the dashboard's transactions query: the answer is
    the query evaluated on the [transactions] collection. *)
Definition transactionsFrom (table : list Transaction)
  : string -> Promise (PostgrestResponse (list Transaction)) :=
  fun uid => ok (transactionsQuery table uid).

(** The answers of a store that holds the [transactions] collection
    [table] and no other record. *)
Definition storeQueries (table : list Transaction) : Queries :=
  {| accountsQ := fun _ => ok [];
     transactionsQ := transactionsFrom table;
     loansQ := fun _ => ok [];
     goalsQ := fun _ => ok [];
     profileQ := fun _ => ok None |}.

(** [netWorth = data.totalBalance - data.totalLoans]. *)
Definition netWorth (d : Data.DashboardData) : number :=
  (Data.totalBalance d - Data.totalLoans d)%js.

(** [Math.max(...data.incomeVsExpenses.map(i => i.income))]. *)
Definition maxIncome (series : list MonthEntry) : number :=
  Math_max_of (map income series).

(** The width of the income bar of an entry of the series, in percent:
    [Math.min((item.income / Math.max(...)) * 100, 100)]. *)
Definition incomeBarWidth (series : list MonthEntry) (item : MonthEntry)
  : number :=
  Math_min ((income item / maxIncome series) * hundred)%js hundred.

(** The width of the expenses bar; it is scaled by the largest income
    as well: [Math.min((item.expenses / Math.max(...)) * 100, 100)]. *)
Definition expensesBarWidth (series : list MonthEntry) (item : MonthEntry)
  : number :=
  Math_min ((expenses item / maxIncome series) * hundred)%js hundred.

(** The width of the bar of a category of the roll-up, in percent:
<<
    const maxTotal = Math.max(...data.expensesByCategory.map(c => c.total));
    const percentage = (cat.total / maxTotal) * 100;
>> *)
Definition percentage (expensesByCategory : list CategoryTotal)
  (c : CategoryTotal) : number :=
  let maxTotal := Math_max_of (map total expensesByCategory) in
  ((total c / maxTotal) * hundred)%js.

(** The columns the dashboard reads of the accounts and loans a view
    shows. *)
Definition dashboardReads (accounts : list Accounts.Account)
  (loans : list Loans.Loan) (transactions : list Transaction)
  (goals : list string) : Queries :=
  {| accountsQ := fun _ => ok (map Accounts.balance accounts);
     transactionsQ := fun _ => ok transactions;
     loansQ := fun _ => ok (map Loans.current_balance loans);
     goalsQ := fun _ => ok goals;
     profileQ := fun _ => ok None |}.

End Dashboard.

(* ------------------------------------------------------------------ *)
(** ** Strings *)

(** Strings are sequences of ASCII characters. *)
Module JSString.

Definition lowerChar (c : ascii) : ascii :=
  let n := nat_of_ascii c in
  if ((65 <=? n) && (n <=? 90))%nat then ascii_of_nat (n + 32) else c.

(** [s.toLowerCase()]. *)
Fixpoint toLowerCase (s : string) : string :=
  match s with
  | EmptyString => EmptyString
  | String c rest => String (lowerChar c) (toLowerCase rest)
  end.

(** [s.includes(sub)]: [sub] occurs in [s] as a contiguous substring. *)
Fixpoint includes (s sub : string) : bool :=
  String.prefix sub s
  || match s with
     | EmptyString => false
     | String _ rest => includes rest sub
     end.

Definition isSpace (c : ascii) : bool :=
  let n := nat_of_ascii c in
  ((n =? 32) || ((9 <=? n) && (n <=? 13)))%nat.

Fixpoint trimStart (s : string) : string :=
  match s with
  | EmptyString => EmptyString
  | String c rest => if isSpace c then trimStart rest else s
  end.

(** The string without its trailing white space. *)
Fixpoint trimEnd (s : string) : string :=
  match s with
  | EmptyString => EmptyString
  | String c rest =>
      match trimEnd rest with
      | EmptyString => if isSpace c then EmptyString else String c EmptyString
      | rest' => String c rest'
      end
  end.

(** [s.trim()]. *)
Definition trim (s : string) : string := trimEnd (trimStart s).

End JSString.

Import JSString.

(* ------------------------------------------------------------------ *)
(** ** Advisor *)

Module Chat.

Local Open Scope string_scope.

Definition budgetReply : string :=
  "Great question about budgeting! A popular method is the 50/30/20 rule: allocate 50% of your income to needs, 30% to wants, and 20% to savings and debt repayment. Track your expenses regularly and adjust as needed. Would you like help setting up a budget plan?".

Definition saveReply : string :=
  "Excellent focus on savings! Start by building an emergency fund covering 3-6 months of expenses. Then consider high-yield savings accounts or automated transfers. Even small amounts add up over time. What's your current savings goal?".

Definition debtReply : string :=
  "Managing debt is crucial for financial health. Consider the avalanche method (paying off highest interest first) or snowball method (smallest balance first). Make minimum payments on all debts while focusing extra payments on one. Would you like help creating a debt payoff plan?".

Definition investReply : string :=
  "Investing is key to building wealth! Start with understanding your risk tolerance and time horizon. Consider diversified index funds for beginners. Remember: invest for the long term, don't try to time the market, and never invest money you can't afford to lose. Have you started investing yet?".

Definition creditScoreReply : string :=
  "Your credit score impacts loan rates and approval. Key factors: payment history (35%), credit utilization (30%), length of credit history (15%), new credit (10%), and credit mix (10%). Pay bills on time, keep utilization below 30%, and avoid opening too many accounts at once.".

Definition retireReply : string :=
  "Retirement planning is essential! Start early to benefit from compound interest. Contribute to employer 401(k) matches first, then consider IRAs. Aim to save 15-20% of income. Use the rule of 72 to estimate investment doubling time. When do you plan to retire?".

Definition emergencyFundReply : string :=
  "An emergency fund is your financial safety net! Aim for 3-6 months of expenses in a high-yield savings account. Start small if needed - even $1000 can help. Keep it liquid and separate from daily spending accounts. This protects you from unexpected expenses without going into debt.".

Definition greetingReply : string :=
  "Hello! I'm your AI Financial Advisor. I'm here to help you with budgeting, saving, investing, debt management, and achieving your financial goals. What would you like to discuss today?".

Definition thanksReply : string :=
  "You're welcome! I'm here anytime you need financial guidance. Remember, small steps lead to big progress. Keep up the great work on your financial journey!".

Definition fallbackReply : string :=
  "That's an interesting question! For personalized financial advice, consider: What are your current financial goals? What's your income vs expenses? Do you have emergency savings? Understanding your full picture helps create the best strategy. What specific financial goal can I help you with?".

(** [generateAIResponse(userMessage)]: the chain of [if (...) return ...]. *)
Definition generateAIResponse (userMessage : string) : string :=
  let lowerMessage := toLowerCase userMessage in
  if includes lowerMessage "budget" || includes lowerMessage "spend"
  then budgetReply
  else if includes lowerMessage "save" || includes lowerMessage "saving"
  then saveReply
  else if includes lowerMessage "debt" || includes lowerMessage "loan"
  then debtReply
  else if includes lowerMessage "invest" || includes lowerMessage "stock"
  then investReply
  else if includes lowerMessage "credit score"
  then creditScoreReply
  else if includes lowerMessage "retire" || includes lowerMessage "retirement"
  then retireReply
  else if includes lowerMessage "emergency fund"
  then emergencyFundReply
  else if includes lowerMessage "hello" || includes lowerMessage "hi"
          || includes lowerMessage "hey"
  then greetingReply
  else if includes lowerMessage "thank"
  then thanksReply
  else fallbackReply.

(** *** The rule table the responder is specified by *)

Inductive rule : Type :=
| BudgetSpend | Save | DebtLoan | Invest | CreditScoreRule
| Retire | EmergencyFund | Greeting | Thanks.

(** The rules in their order of priority. *)
Definition priority : list rule :=
  [BudgetSpend; Save; DebtLoan; Invest; CreditScoreRule;
   Retire; EmergencyFund; Greeting; Thanks].

Definition keywords (r : rule) : list string :=
  match r with
  | BudgetSpend => ["budget"; "spend"]
  | Save => ["save"; "saving"]
  | DebtLoan => ["debt"; "loan"]
  | Invest => ["invest"; "stock"]
  | CreditScoreRule => ["credit score"]
  | Retire => ["retire"; "retirement"]
  | EmergencyFund => ["emergency fund"]
  | Greeting => ["hello"; "hi"; "hey"]
  | Thanks => ["thank"]
  end.

Definition reply (r : rule) : string :=
  match r with
  | BudgetSpend => budgetReply
  | Save => saveReply
  | DebtLoan => debtReply
  | Invest => investReply
  | CreditScoreRule => creditScoreReply
  | Retire => retireReply
  | EmergencyFund => emergencyFundReply
  | Greeting => greetingReply
  | Thanks => thanksReply
  end.

(** A rule matches when one of its keywords occurs in the normalised
    text. *)
Definition matches (lowerMessage : string) (r : rule) : bool :=
  existsb (includes lowerMessage) (keywords r).

(** The reply of the first rule that matches, the fallback when none
    does. *)
Definition firstMatchReply (userMessage : string) : string :=
  match find (matches (toLowerCase userMessage)) priority with
  | Some r => reply r
  | None => fallbackReply
  end.

(** *** The component *)

Record Message : Type := {
  user_id : string;
  message : string;
  sender : string
}.

(** The state of the view together with the [chat_conversations]
    collection of the store. *)
Record State : Type := {
  messages : list Message;
  input : string;
  loading : bool;
  console : list logline;
  chat_conversations : list Message
}.

Definition setMessages (v : list Message) : M State unit :=
  modify (fun s =>
    {| messages := v; input := input s; loading := loading s;
       console := console s; chat_conversations := chat_conversations s |}).

Definition setInput (v : string) : M State unit :=
  modify (fun s =>
    {| messages := messages s; input := v; loading := loading s;
       console := console s; chat_conversations := chat_conversations s |}).

Definition setLoading (b : bool) : M State unit :=
  modify (fun s =>
    {| messages := messages s; input := input s; loading := b;
       console := console s; chat_conversations := chat_conversations s |}).

Definition console_error (label err : string) : M State unit :=
  modify (fun s =>
    {| messages := messages s; input := input s; loading := loading s;
       console := console s ++ [(label, err)];
       chat_conversations := chat_conversations s |}).

(** [supabase.from('chat_conversations').insert(row)]: the store either
    reports the error [accepts row] or appends the row. *)
Definition insert (accepts : Message -> option string) (row : Message)
  : M State (option string) :=
  fun s =>
    match accepts row with
    | Some e => (Normal (Some e), s)
    | None =>
        (Normal None,
         {| messages := messages s; input := input s; loading := loading s;
            console := console s;
            chat_conversations := chat_conversations s ++ [row] |})
    end.

(** [loadMessages] when the read of the store reports no error: the
    rows of the user in the order of their creation.  The read that
    reports an error is in [WithRead.loadMessages] below. *)
Definition loadMessages (user : option Auth.User) : M State unit :=
  match user with
  | None => ret tt
  | Some u =>
      try_catch
        (fun s =>
           setMessages
             (filter (fun m => String.eqb (user_id m) (Auth.id u))
                     (chat_conversations s)) s)
        (fun e => console_error "Error loading messages:" e)
  end.

Definition throwIfError (e : option string) : M State unit :=
  match e with
  | Some err => throw err
  | None => ret tt
  end.

(** [handleSend]. *)
Definition handleSend (user : option Auth.User)
  (accepts : Message -> option string) : M State unit :=
  fun s =>
    match trim (input s), user with
    | EmptyString, _ | _, None => (Normal tt, s)
    | userMessage, Some u =>
        (setInput "" ;;
         setLoading true ;;
         try_catch_finally
           (userError <- insert accepts
              {| user_id := Auth.id u; message := userMessage;
                 sender := "user" |} ;;
            throwIfError userError ;;
            let aiResponse := generateAIResponse userMessage in
            aiError <- insert accepts
              {| user_id := Auth.id u; message := aiResponse;
                 sender := "ai" |} ;;
            throwIfError aiError ;;
            loadMessages user)
           (fun e => console_error "Error sending message:" e)
           (setLoading false))%handler s
    end.

(** The rows a completed [handleSend] has added to the store. *)
Definition added (before after : State) (rows : list Message) : Prop :=
  chat_conversations after = (chat_conversations before ++ rows)%list.

(** [loadMessages] and [handleSend] with the answer of the store to the
    read of [loadMessages]: an error, or the rows of the user in the
    order of their creation. *)
Module WithRead.

(**
<<
    if (!user) return;
    try {
      const { data, error } = await supabase.from('chat_conversations')
        .select('*').eq('user_id', user.id)
        .order('created_at', { ascending: true });
      if (error) throw error;
      setMessages(data || []);
    } catch (error) {
      console.error('Error loading messages:', error);
    }
>> *)
Definition loadMessages (readError : option string)
  (user : option Auth.User) : M State unit :=
  match user with
  | None => ret tt
  | Some u =>
      try_catch
        (throwIfError readError ;;
         fun s =>
           setMessages
             (filter (fun m => String.eqb (user_id m) (Auth.id u))
                     (chat_conversations s)) s)%handler
        (fun e => console_error "Error loading messages:" e)
  end.

(** [handleSend]. *)
Definition handleSend (readError : option string) (user : option Auth.User)
  (accepts : Message -> option string) : M State unit :=
  fun s =>
    match trim (input s), user with
    | EmptyString, _ | _, None => (Normal tt, s)
    | userMessage, Some u =>
        (setInput "" ;;
         setLoading true ;;
         try_catch_finally
           (userError <- insert accepts
              {| user_id := Auth.id u; message := userMessage;
                 sender := "user" |} ;;
            throwIfError userError ;;
            let aiResponse := generateAIResponse userMessage in
            aiError <- insert accepts
              {| user_id := Auth.id u; message := aiResponse;
                 sender := "ai" |} ;;
            throwIfError aiError ;;
            loadMessages readError user)
           (fun e => console_error "Error sending message:" e)
           (setLoading false))%handler s
    end.

End WithRead.

End Chat.

(* ------------------------------------------------------------------ *)
(** ** Sample records *)

Local Open Scope string_scope.
Local Open Scope list_scope.
Local Open Scope Z_scope.

Definition sampleLoan : Loans.Loan :=
  {| Loans.id := "l1"; Loans.loan_name := "Car"; Loans.loan_type := "auto";
     Loans.principal_amount := 10000; Loans.current_balance := 8000;
     Loans.interest_rate := 7; Loans.monthly_payment := 250 |}.

(** A goal whose recorded amount is below zero. *)
Definition overdrawnGoal : Goals.Goal :=
  {| Goals.id := "g1"; Goals.goal_name := "Holiday";
     Goals.goal_type := "savings";
     Goals.target_amount := 100; Goals.current_amount := -50 |}.

Definition halfwayGoal : Goals.Goal :=
  {| Goals.id := "g2"; Goals.goal_name := "Deposit";
     Goals.goal_type := "savings";
     Goals.target_amount := 10000; Goals.current_amount := 5000 |}.

Definition sampleUser : Auth.User := {| Auth.id := "1"; Auth.name := "alice" |}.

Definition sampleAccount : Accounts.Account :=
  {| Accounts.id := "a1"; Accounts.user_id := "1";
     Accounts.account_name := "Cheque"; Accounts.account_type := "checking";
     Accounts.institution := None; Accounts.balance := 1000;
     Accounts.is_manual := true |}.

(** The accounts view after a first load that returned one account. *)
Definition loadedAccounts : Accounts.State :=
  {| EntityView.items := [sampleAccount]; EntityView.loading := false;
     EntityView.console := [] |}.

(** Two chat views with the same text typed in and different histories. *)
Definition freshChat : Chat.State :=
  {| Chat.messages := []; Chat.input := "  Any STOCK tips? ";
     Chat.loading := false; Chat.console := [];
     Chat.chat_conversations := [] |}.

Definition busyChat : Chat.State :=
  let earlier :=
    [ {| Chat.user_id := "1"; Chat.message := "how do I budget";
         Chat.sender := "user" |};
      {| Chat.user_id := "1"; Chat.message := Chat.budgetReply;
         Chat.sender := "ai" |} ] in
  {| Chat.messages := earlier; Chat.input := "  Any STOCK tips? ";
     Chat.loading := false; Chat.console := [];
     Chat.chat_conversations := earlier |}.

(** A clock reading in March 2024. *)
Definition march2024 : Date :=
  {| getFullYear := 2024; getMonth := 2; getDate := 15 |}.

Definition transactionOn (day : Z) (ty c : string) (a : Q)
  : Transactions.Transaction :=
  {| Transactions.id := ""; Transactions.user_id := "1";
     Transactions.category := c; Transactions.amount := a;
     Transactions.transaction_type := ty;
     Transactions.transaction_date :=
       {| getFullYear := 2024; getMonth := 2; getDate := day |};
     Transactions.description := None |}.

(** The transactions of user ["1"] in March 2024: an income of 100 on
    each of the days 1 to 11 and an expense of 10 on each of the days 12
    to 22. *)
Definition busyMonth : list Transactions.Transaction :=
  map (fun d => transactionOn d "income" "Salary" 100)
      [1; 2; 3; 4; 5; 6; 7; 8; 9; 10; 11]
  ++ map (fun d => transactionOn d "expense" "Groceries" 10)
         [12; 13; 14; 15; 16; 17; 18; 19; 20; 21; 22].

(** The two expenses of the end-to-end scenario, in the order of their
    insertion. *)
Definition groceriesThenDining : list Transactions.Transaction :=
  [transactionOn 3 "expense" "Groceries" 150;
   transactionOn 4 "expense" "Dining" 50].

(** A loan paid back by a quarter. *)
Definition quarterPaidLoan : Loans.Loan :=
  {| Loans.id := "l2"; Loans.loan_name := "Study"; Loans.loan_type := "student";
     Loans.principal_amount := 4000; Loans.current_balance := 3000;
     Loans.interest_rate := 5; Loans.monthly_payment := 100 |}.

Definition scoreEntry (s : Z) (day : Z) : CreditScore.CreditScoreEntry :=
  {| CreditScore.id := ""; CreditScore.score := s;
     CreditScore.score_date :=
       {| getFullYear := 2024; getMonth := 2; getDate := day |};
     CreditScore.provider := "Self-reported" |}.

(** Two entries of the score history, the latest first. *)
Definition scoreHistory : list CreditScore.CreditScoreEntry :=
  [scoreEntry 720 20; scoreEntry 735 5].

(** A month with one income and two expenses. *)
Definition mixedMonth : list Transactions.Transaction :=
  [transactionOn 1 "income" "Salary" 2000;
   transactionOn 3 "expense" "Groceries" 150;
   transactionOn 4 "expense" "Dining" 50].

(** A chat view with a message typed in. *)
Definition typedChat : Chat.State :=
  {| Chat.messages := []; Chat.input := " thanks for this ";
     Chat.loading := false; Chat.console := [];
     Chat.chat_conversations := [] |}.

(** A chat view with only white space typed in. *)
Definition blankChat : Chat.State :=
  {| Chat.messages := []; Chat.input := "   ";
     Chat.loading := false; Chat.console := [];
     Chat.chat_conversations := [] |}.

(** A store whose every read reports an error. *)
Definition failingReads : Dashboard.Queries :=
  {| Dashboard.accountsQ := fun _ => failed "down";
     Dashboard.transactionsQ := fun _ => failed "down";
     Dashboard.loansQ := fun _ => failed "down";
     Dashboard.goalsQ := fun _ => failed "down";
     Dashboard.profileQ := fun _ => failed "down" |}.

(** The first and the second day of August 2024, as date-only strings. *)
Definition firstOfAugust : DateOnly :=
  {| isoYear := 2024; isoMonth := 8; isoDay := 1 |}.

Definition secondOfAugust : DateOnly :=
  {| isoYear := 2024; isoMonth := 8; isoDay := 2 |}.

(** A store that holds one account, of the user ["1"]. *)
Definition accountsOfUserOne : EntityView.query (A := Accounts.Account) :=
  fun identifier =>
    if String.eqb identifier "1" then ok [sampleAccount] else ok [].

(* ================================================================== *)
(** * Properties *)

Import Dashboard.

(** ** Numbers *)

Lemma Qeq_bool_false (q : Q) : ~ (q == 0)%Q -> Qeq_bool q 0 = false.
Proof.
  intro H. destruct (Qeq_bool q 0) eqn:E; [|reflexivity].
  apply Qeq_bool_eq in E. contradiction.
Qed.

Lemma Qlt_bool_true (a b : Q) : (a < b)%Q -> Qlt_bool a b = true.
Proof.
  intro H. unfold Qlt_bool.
  destruct (Qle_bool b a) eqn:E; [|reflexivity].
  apply Qle_bool_imp_le in E. exfalso. exact (Qlt_not_le _ _ H E).
Qed.

Lemma Qlt_bool_false (a b : Q) : (b <= a)%Q -> Qlt_bool a b = false.
Proof.
  intro H. unfold Qlt_bool.
  apply (proj2 (Qle_bool_iff b a)) in H. now rewrite H.
Qed.

Lemma num_eq_refl (a : number) : a =n= a.
Proof. destruct a; simpl; auto. reflexivity. Qed.

Lemma num_eq_sym (a b : number) : a =n= b -> b =n= a.
Proof. destruct a, b; simpl; auto. intro H. now symmetry. Qed.

Lemma num_eq_trans (a b c : number) : a =n= b -> b =n= c -> a =n= c.
Proof.
  destruct a, b, c; simpl; auto; try contradiction.
  intros H1 H2. now rewrite H1.
Qed.

(** ** Lists *)

Lemma filter_none {A : Type} (p : A -> bool) (l : list A) :
  (forall x, In x l -> p x = false) -> filter p l = [].
Proof.
  induction l as [|a l IH]; intro H; simpl; [reflexivity|].
  rewrite (H a (or_introl eq_refl)). apply IH.
  intros x Hx. apply H. now right.
Qed.

Lemma filter_filter {A : Type} (p q : A -> bool) (l : list A) :
  filter p (filter q l) = filter (fun x => q x && p x) l.
Proof.
  induction l as [|a l IH]; simpl; [reflexivity|].
  destruct (q a); simpl; [destruct (p a)|]; now rewrite IH.
Qed.

Lemma filter_permutation {A : Type} (p : A -> bool) (l l' : list A) :
  Permutation l l' -> Permutation (filter p l) (filter p l').
Proof.
  induction 1 as [|x l l' _ IH|x y l|l l' l'' _ IH1 _ IH2]; cbn [filter].
  - apply perm_nil.
  - destruct (p x); [now apply perm_skip|exact IH].
  - destruct (p x), (p y); try apply Permutation_refl. apply perm_swap.
  - now apply (perm_trans IH1).
Qed.

Lemma Qsum_start (l : list Q) (a b : Q) :
  (a == b)%Q -> (fold_left Qplus l a == fold_left Qplus l b)%Q.
Proof.
  revert a b. induction l as [|x l IH]; intros a b E; simpl; [exact E|].
  apply IH. now rewrite E.
Qed.

Lemma Qsum_permutation (l l' : list Q) :
  Permutation l l' ->
  forall a : Q, (fold_left Qplus l a == fold_left Qplus l' a)%Q.
Proof.
  induction 1 as [|x l l' _ IH|x y l|l l' l'' _ IH1 _ IH2]; intro a; simpl.
  - reflexivity.
  - apply IH.
  - apply Qsum_start. rewrite <- !Qplus_assoc. now rewrite (Qplus_comm y x).
  - now rewrite IH1.
Qed.

(** ** Stable sorting *)

Section StableSort.
Context {A : Type}.
Variable after : A -> A -> bool.

Lemma insert_permutation (x : A) (l : list A) :
  Permutation (x :: l) (JSArray.insert after x l).
Proof.
  induction l as [|y l IH]; simpl.
  - apply Permutation_refl.
  - destruct (after x y).
    + eapply perm_trans; [apply perm_swap|]. now apply perm_skip.
    + apply Permutation_refl.
Qed.

Lemma stable_sort_permutation (l : list A) :
  Permutation l (JSArray.stable_sort after l).
Proof.
  induction l as [|x l IH]; simpl.
  - apply perm_nil.
  - eapply perm_trans; [|apply insert_permutation]. now apply perm_skip.
Qed.

(** Sorting keeps the order inside every class [p] of elements that the
    comparison never exchanges with one another. *)
Section Class.
Variable p : A -> bool.
Hypothesis class_unordered :
  forall x y, after x y = true -> p x = true -> p y = false.

Lemma filter_insert (x : A) (l : list A) :
  filter p (JSArray.insert after x l) = filter p (x :: l).
Proof.
  induction l as [|y l IH]; [reflexivity|].
  cbn [JSArray.insert]. destruct (after x y) eqn:E.
  - cbn [filter]. rewrite IH. cbn [filter].
    destruct (p x) eqn:Px; [|reflexivity].
    now rewrite (class_unordered x y E Px).
  - reflexivity.
Qed.

Lemma filter_stable_sort (l : list A) :
  filter p (JSArray.stable_sort after l) = filter p l.
Proof.
  induction l as [|x l IH]; [reflexivity|].
  cbn [JSArray.stable_sort]. rewrite filter_insert. cbn [filter].
  now rewrite IH.
Qed.
End Class.

(** Sorting arranges the elements of a domain [dom] on which the
    comparison is a total preorder. *)
Section Order.
Variable dom : A -> Prop.
Variable before : A -> A -> Prop.
Hypothesis before_trans :
  forall x y z, dom x -> dom y -> dom z ->
                before x y -> before y z -> before x z.
Hypothesis after_true :
  forall x y, dom x -> dom y -> after x y = true -> before y x.
Hypothesis after_false :
  forall x y, dom x -> dom y -> after x y = false -> before x y.

Lemma insert_sorted (x : A) (l : list A) :
  dom x -> Forall dom l ->
  StronglySorted before l ->
  StronglySorted before (JSArray.insert after x l).
Proof.
  intros Hx Hl Hs. induction Hs as [|y l Hs IH Hy]; simpl.
  - constructor; [constructor|constructor].
  - inversion Hl as [|y' l' Dy Dl]; subst.
    destruct (after x y) eqn:E.
    + constructor; [now apply IH|].
      apply (Permutation_Forall (insert_permutation x l)).
      constructor; [now apply after_true|exact Hy].
    + constructor; [now constructor|].
      pose proof (after_false x y Hx Dy E) as Hxy.
      constructor; [exact Hxy|].
      rewrite Forall_forall in *. intros z Hz.
      apply (before_trans x y z); auto.
Qed.

Lemma stable_sort_sorted (l : list A) :
  Forall dom l -> StronglySorted before (JSArray.stable_sort after l).
Proof.
  induction l as [|x l IH]; intro Hl; simpl.
  - constructor.
  - inversion Hl as [|x' l' Dx Dl]; subst.
    apply insert_sorted; auto.
    apply (Permutation_Forall (stable_sort_permutation l)). exact Dl.
Qed.
End Order.
End StableSort.

(** ** Relative position in a list *)

Section Precedes.
Context {A : Type}.

Lemma precedes_cons (a x y : A) (l : list A) :
  JSArray.precedes x y l -> JSArray.precedes x y (a :: l).
Proof.
  intros (l1 & l2 & l3 & ->). now exists (a :: l1), l2, l3.
Qed.

Lemma precedes_head (x y : A) (l : list A) :
  In y l -> JSArray.precedes x y (x :: l).
Proof.
  intro H. apply in_split in H as (l2 & l3 & ->). now exists [], l2, l3.
Qed.

Lemma precedes_app_l (x y : A) (l l' : list A) :
  JSArray.precedes x y l -> JSArray.precedes x y (l ++ l').
Proof.
  intros (l1 & l2 & l3 & ->). exists l1, l2, (l3 ++ l').
  rewrite <- !app_assoc. cbn [app]. rewrite <- !app_assoc. reflexivity.
Qed.

Lemma precedes_firstn (n : nat) (x y : A) (l : list A) :
  JSArray.precedes x y (firstn n l) -> JSArray.precedes x y l.
Proof.
  intro H. rewrite <- (firstn_skipn n l). now apply precedes_app_l.
Qed.

Lemma precedes_inv (a x y : A) (l : list A) :
  JSArray.precedes x y (a :: l) ->
  (a = x /\ In y l) \/ JSArray.precedes x y l.
Proof.
  intros (l1 & l2 & l3 & E). destruct l1 as [|b l1]; cbn [app] in E.
  - injection E as -> ->. left. split; [reflexivity|].
    apply in_or_app. right. now left.
  - injection E as -> ->. right. now exists l1, l2, l3.
Qed.

Lemma precedes_sorted (R : A -> A -> Prop) (x y : A) (l : list A) :
  StronglySorted R l -> JSArray.precedes x y l -> R x y.
Proof.
  intros Hs. induction Hs as [|a l Hs IH Ha]; intro H.
  - destruct H as (l1 & l2 & l3 & E). destruct l1; discriminate E.
  - apply precedes_inv in H as [[-> Hy]|H]; [|now apply IH].
    rewrite Forall_forall in Ha. now apply Ha.
Qed.

Lemma precedes_filter (p : A -> bool) (x y : A) (l : list A) :
  JSArray.precedes x y (filter p l) -> JSArray.precedes x y l.
Proof.
  induction l as [|a l IH]; cbn [filter]; intro H.
  - destruct H as (l1 & l2 & l3 & E). destruct l1; discriminate E.
  - destruct (p a).
    + apply precedes_inv in H as [[-> Hy]|H].
      * apply precedes_head. apply filter_In in Hy. apply Hy.
      * apply precedes_cons. now apply IH.
    + apply precedes_cons. now apply IH.
Qed.

Lemma filter_precedes (p : A -> bool) (x y : A) (l : list A) :
  p x = true -> p y = true ->
  JSArray.precedes x y l -> JSArray.precedes x y (filter p l).
Proof.
  intros Px Py (l1 & l2 & l3 & ->).
  exists (filter p l1), (filter p l2), (filter p l3).
  rewrite filter_app. cbn [filter]. rewrite Px.
  rewrite filter_app. cbn [filter]. now rewrite Py.
Qed.

Lemma precedes_map {B : Type} (f : A -> B) (x y : A) (l : list A) :
  JSArray.precedes x y l -> JSArray.precedes (f x) (f y) (map f l).
Proof.
  intros (l1 & l2 & l3 & ->).
  exists (map f l1), (map f l2), (map f l3).
  rewrite map_app. cbn [map]. rewrite map_app. reflexivity.
Qed.
End Precedes.

(** ** Loan and goal progress, savings rate *)

Lemma loan_progress_nonzero (current principal : Q) :
  ~ (principal == 0)%Q ->
  Loans.calculateProgress (Number current) (Number principal)
  = Finite ((principal - current) / principal * 100).
Proof.
  intro Hp. unfold Loans.calculateProgress, Number, hundred. simpl.
  now rewrite (Qeq_bool_false _ Hp).
Qed.

(** C6. For every loan whose principal is not zero, the repayment
    progress is [(principal - current_balance) / principal * 100]; a
    principal of 10000 with a balance of 8000 gives 20. *)
Theorem C6_loan_progress :
  forall loan : Loans.Loan,
    ~ (Loans.principal_amount loan == 0)%Q ->
    Loans.progress loan
    =n= Finite ((Loans.principal_amount loan - Loans.current_balance loan)
                / Loans.principal_amount loan * 100)
    /\ Loans.calculateProgress (Number 8000) (Number 10000) =n= Finite 20.
Proof.
  intros loan Hp. split.
  - unfold Loans.progress. rewrite (loan_progress_nonzero _ _ Hp).
    apply num_eq_refl.
  - vm_compute. reflexivity.
Qed.

Lemma C6_loan_progress_witness :
  Loans.progress sampleLoan
  =n= Finite ((10000 - 8000) / 10000 * 100)
  /\ Loans.calculateProgress (Number 8000) (Number 10000) =n= Finite 20.
Proof.
  apply (C6_loan_progress sampleLoan). simpl. intro H. discriminate H.
Defined.

Lemma goal_progress_nonzero (current target : Q) :
  ~ (target == 0)%Q ->
  Goals.calculateProgress (Number current) (Number target)
  =n= Finite (Qmin (current / target * 100) 100).
Proof.
  intro Ht. unfold Goals.calculateProgress, Number, hundred. simpl.
  rewrite (Qeq_bool_false _ Ht). simpl.
  destruct (Qle_bool (current / target * 100) 100) eqn:E.
  - apply Qle_bool_imp_le in E. symmetry. now apply Q.min_l.
  - symmetry. apply Q.min_r.
    destruct (Qlt_le_dec 100 (current / target * 100)) as [H|H].
    + now apply Qlt_le_weak.
    + apply (proj2 (Qle_bool_iff _ _)) in H. congruence.
Qed.

Lemma between_eq (lo hi : Q) (a : number) (q : Q) :
  a =n= Finite q -> (lo <= q)%Q -> (q <= hi)%Q -> between lo hi a.
Proof.
  destruct a; simpl; try contradiction.
  intros E H1 H2. rewrite E. now split.
Qed.

Lemma le_eq_l (a : number) (q r : Q) :
  a =n= Finite q -> (q <= r)%Q -> le a (Finite r).
Proof.
  destruct a; simpl; try contradiction. intros E H. now rewrite E.
Qed.

(** C5 (amended). For every goal whose target is not zero, the progress
    is [min(current_amount / target_amount * 100, 100)] and is at most
    100; it lies in the interval from 0 to 100 when the quotient
    [current_amount / target_amount] is not negative.  A current amount
    of 5000 against 10000 gives 50, and 12000 against 10000 gives 100. *)
Theorem C5_goal_progress :
  forall goal : Goals.Goal,
    ~ (Goals.target_amount goal == 0)%Q ->
    let ratio := (Goals.current_amount goal / Goals.target_amount goal)%Q in
    Goals.progress goal =n= Finite (Qmin (ratio * 100) 100)
    /\ le (Goals.progress goal) (Finite 100)
    /\ ((0 <= ratio)%Q -> between 0 100 (Goals.progress goal))
    /\ Goals.calculateProgress (Number 5000) (Number 10000) =n= Finite 50
    /\ Goals.calculateProgress (Number 12000) (Number 10000) =n= Finite 100.
Proof.
  intros goal Ht ratio.
  pose proof (goal_progress_nonzero (Goals.current_amount goal) _ Ht) as E.
  fold ratio in E. unfold Goals.progress.
  split; [|split; [|split; [|split]]].
  - exact E.
  - apply (le_eq_l _ _ _ E). apply Q.le_min_r.
  - intro Hr. apply (between_eq _ _ _ _ E).
    + apply Q.min_glb.
      * rewrite <- (Qmult_0_l 100) at 1. apply Qmult_le_compat_r; [exact Hr|discriminate].
      * discriminate.
    + apply Q.le_min_r.
  - vm_compute. reflexivity.
  - vm_compute. reflexivity.
Qed.

Lemma C5_goal_progress_witness :
  let ratio := (5000 / 10000)%Q in
  Goals.progress halfwayGoal =n= Finite (Qmin (ratio * 100) 100)
  /\ le (Goals.progress halfwayGoal) (Finite 100)
  /\ ((0 <= ratio)%Q -> between 0 100 (Goals.progress halfwayGoal))
  /\ Goals.calculateProgress (Number 5000) (Number 10000) =n= Finite 50
  /\ Goals.calculateProgress (Number 12000) (Number 10000) =n= Finite 100.
Proof.
  apply (C5_goal_progress halfwayGoal). simpl. intro H. discriminate H.
Defined.

(** C5 as stated fails: a goal with target 100 and current amount -50
    has a non-zero target and a progress of -50, outside the interval
    from 0 to 100. *)
Lemma C5_counterexample :
  ~ (Goals.target_amount overdrawnGoal == 0)%Q
  /\ Goals.progress overdrawnGoal =n= Finite (-50)
  /\ ~ between 0 100 (Goals.progress overdrawnGoal).
Proof.
  split; [|split].
  - simpl. intro H. discriminate H.
  - vm_compute. reflexivity.
  - vm_compute. intros [H _]. apply H. reflexivity.
Qed.

(** C4. The divisions of loan progress and goal progress are not
    guarded: with a zero principal, respectively a zero target, the
    result is [NaN] or an infinity.  The division of the savings rate is
    guarded: its result is finite whatever the finite totals are. *)
Theorem C4_division_guards :
  Loans.calculateProgress (Number 0) (Number 0) = NaN
  /\ Loans.calculateProgress (Number 8000) (Number 0) = NegInfinity
  /\ Goals.calculateProgress (Number 0) (Number 0) = NaN
  /\ Goals.calculateProgress (Number (-50)) (Number 0) = NegInfinity
  /\ (forall monthlyIncome monthlyExpenses : Q,
        isFinite (savingsRate (Number monthlyIncome) (Number monthlyExpenses))
        = true).
Proof.
  repeat split; try reflexivity.
  intros i e. unfold savingsRate, Number, zero, hundred. simpl.
  destruct (Qlt_bool 0 i) eqn:E; [|reflexivity].
  simpl. destruct (Qeq_bool i 0) eqn:Z; [|reflexivity].
  apply Qeq_bool_eq in Z. unfold Qlt_bool in E.
  assert (H : Qle_bool i 0 = true).
  { apply (proj2 (Qle_bool_iff _ _)). rewrite Z. apply Qle_refl. }
  rewrite H in E. discriminate E.
Qed.

(** C7. The savings rate is [(income - expenses) / income * 100] when
    [income > 0] and exactly 0 otherwise; with an income of 0 it is the
    finite number 0 whatever the expenses are. *)
Theorem C7_savings_rate :
  forall income expenses : number,
    ((income > zero)%js = true ->
     savingsRate income expenses
     = (((income - expenses) / income) * hundred)%js)
    /\ ((income > zero)%js = false -> savingsRate income expenses = zero)
    /\ (forall i e : Q, (0 < i)%Q ->
          savingsRate (Number i) (Number e)
          =n= Finite ((i - e) / i * 100))
    /\ (forall i : Q, (i <= 0)%Q ->
          savingsRate (Number i) expenses = Finite 0)
    /\ savingsRate (Number 0) expenses = Finite 0
    /\ isFinite (savingsRate (Number 0) expenses) = true.
Proof.
  intros income expenses. unfold savingsRate.
  split; [|split; [|split; [|split; [|split]]]].
  - intros ->. reflexivity.
  - intros ->. reflexivity.
  - intros i e Hi. unfold Number, zero, hundred. simpl.
    rewrite (Qlt_bool_true _ _ Hi). simpl.
    rewrite Qeq_bool_false.
    + simpl. reflexivity.
    + intro Z. rewrite Z in Hi. exact (Qlt_irrefl _ Hi).
  - intros i Hi. unfold Number, zero. simpl.
    now rewrite (Qlt_bool_false _ _ Hi).
  - reflexivity.
  - reflexivity.
Qed.

Lemma C7_savings_rate_witness :
  savingsRate (Number 100) (Number 10) =n= Finite ((100 - 10) / 100 * 100)
  /\ savingsRate (Number (-3)) (Number 10) = Finite 0.
Proof.
  destruct (C7_savings_rate (Number 100) (Number 10))
    as (_ & _ & Hpos & Hneg & _).
  split.
  - apply Hpos. reflexivity.
  - apply Hneg. discriminate.
Defined.

(** ** Entity fetchers *)

Lemma load_failure (A : Type) (label : string) (u : Auth.User)
  (q : EntityView.query (A := A)) (st : EntityView.State A) (e : string) :
  readFails (q (Auth.id u)) e ->
  EntityView.load label (Some u) q st
  = (Normal tt,
     {| EntityView.items := EntityView.items st;
        EntityView.loading := false;
        EntityView.console := EntityView.console st ++ [(label, e)] |}).
Proof.
  intros [H|[d H]]; unfold EntityView.load, try_catch_finally, bind;
    rewrite H; reflexivity.
Qed.

Lemma loadData_rejected (u : Auth.User) tq aq (st : Transactions.State)
  (e : string) :
  Promise_all2 (tq (Auth.id u)) (aq (Auth.id u)) = Rejected e ->
  Transactions.loadData (Some u) tq aq st
  = (Normal tt,
     {| Transactions.transactions := Transactions.transactions st;
        Transactions.accounts := Transactions.accounts st;
        Transactions.loading := false;
        Transactions.console :=
          Transactions.console st ++ [("Error loading transactions:", e)] |}).
Proof.
  intro H. unfold Transactions.loadData, try_catch_finally, bind.
  rewrite H. reflexivity.
Qed.

Lemma loadData_fulfilled (u : Auth.User) tq aq (st : Transactions.State)
  tr ar :
  tq (Auth.id u) = Fulfilled tr -> aq (Auth.id u) = Fulfilled ar ->
  Transactions.loadData (Some u) tq aq st
  = (Normal tt,
     {| Transactions.transactions :=
          match Supabase.data tr with Some r => r | None => [] end;
        Transactions.accounts :=
          match Supabase.data ar with Some r => r | None => [] end;
        Transactions.loading := false;
        Transactions.console := Transactions.console st |}).
Proof.
  intros Ht Ha. unfold Transactions.loadData, try_catch_finally, bind.
  rewrite Ht, Ha. reflexivity.
Qed.

Lemma loadDashboardData_rejected (u : Auth.User) (now : Date) (q : Queries)
  (st : State) (e : string) :
  allQueries q (Auth.id u) = Rejected e ->
  loadDashboardData (Some u) now q st
  = (Normal tt,
     {| data := data st; loading := false;
        console := console st ++ [("Error loading dashboard:", e)] |}).
Proof.
  intro H.
  unfold loadDashboardData, try_catch_finally, bind.
  rewrite H. reflexivity.
Qed.

Lemma loadDashboardData_fulfilled (u : Auth.User) (now : Date) (q : Queries)
  (st : State) accountsRes transactionsRes loansRes goalsRes profileRes :
  allQueries q (Auth.id u)
  = Fulfilled (accountsRes, transactionsRes, loansRes, goalsRes, profileRes) ->
  exists d,
    loadDashboardData (Some u) now q st
    = (Normal tt, {| data := d; loading := false; console := console st |})
    /\ Data.recentTransactions d = rowsOf (Supabase.data transactionsRes)
    /\ Data.monthlyIncome d
       = monthlyIncome
           (currentMonthTransactions (Supabase.data transactionsRes) now)
    /\ Data.monthlyExpenses d
       = monthlyExpenses
           (currentMonthTransactions (Supabase.data transactionsRes) now)
    /\ Data.expensesByCategory d
       = expensesByCategory
           (currentMonthTransactions (Supabase.data transactionsRes) now)
    /\ Data.incomeVsExpenses d
       = incomeVsExpenses (Supabase.data transactionsRes) now.
Proof.
  intro H.
  unfold loadDashboardData, try_catch_finally, bind.
  rewrite H. simpl. eexists. split; [reflexivity|]. simpl. repeat split.
Qed.




(** ** Authentication context *)

Lemma identified_initial : Auth.identified Auth.initial.
Proof. intros u H. discriminate H. Qed.

Lemma identified_login (name : string) (s : Auth.State) :
  Auth.identified (Auth.login name s).
Proof. intros u H. simpl in H. injection H as <-. reflexivity. Qed.

Lemma identified_step (s : Auth.State) (op : Auth.operation) :
  Auth.identified s -> Auth.identified (Auth.step s op).
Proof.
  intros Hs. destruct op as [name| |]; simpl.
  - apply identified_login.
  - intros u H. discriminate H.
  - exact Hs.
Qed.

Lemma identified_fold (ops : list Auth.operation) (s : Auth.State) :
  Auth.identified s -> Auth.identified (fold_left Auth.step ops s).
Proof.
  revert s. induction ops as [|op ops IH]; intros s Hs; simpl.
  - exact Hs.
  - apply IH, identified_step, Hs.
Qed.




(** ** Monthly totals *)

Lemma dashboard_monthly_totals (table : list Transactions.Transaction)
  (u : Auth.User) (now : Date) (st : State) :
  let shown := data (snd (loadDashboardData (Some u) now
                            (storeQueries table) st)) in
  let recent := transactionsQuery table (Auth.id u) in
  let inCurrentMonth := inMonth (getMonth now) (getFullYear now) in
  Data.recentTransactions shown = recent
  /\ Data.monthlyIncome shown
     = sumAmount (filter (fun t => inCurrentMonth t && hasType "income" t)
                         recent)
  /\ Data.monthlyExpenses shown
     = sumAmount (filter (fun t => inCurrentMonth t && hasType "expense" t)
                         recent).
Proof.
  cbv zeta.
  destruct (loadDashboardData_fulfilled u now (storeQueries table) st
              _ _ _ _ _ eq_refl)
    as (d & Hrun & Hrecent & Hinc & Hexp & _).
  rewrite Hrun. cbn [snd data]. rewrite Hrecent, Hinc, Hexp.
  unfold monthlyIncome, monthlyExpenses, currentMonthTransactions.
  cbn [Supabase.data filterData rowsOf].
  rewrite !filter_filter. repeat split.
Qed.

Lemma sumAmount_from (ts : list Transactions.Transaction) (a : Q) :
  fold_left (fun sum t => (sum + Number (Transactions.amount t))%js)
            ts (Finite a)
  = Finite (fold_left Qplus (map Transactions.amount ts) a).
Proof.
  revert a. induction ts as [|t ts IH]; intro a; simpl; [reflexivity|].
  apply IH.
Qed.

Lemma sumAmount_permutation (ts ts' : list Transactions.Transaction) :
  Permutation ts ts' -> sumAmount ts =n= sumAmount ts'.
Proof.
  intro H. unfold sumAmount, zero. rewrite !sumAmount_from. simpl.
  apply Qsum_permutation. now apply Permutation_map.
Qed.

Lemma transactionsQuery_all (table : list Transactions.Transaction)
  (uid : string) :
  (List.length (eq_user_id uid table) <= 10)%nat ->
  Permutation (transactionsQuery table uid) (eq_user_id uid table).
Proof.
  intro H. unfold transactionsQuery, limit, order_transaction_date_desc.
  rewrite firstn_all2.
  - apply Permutation_sym, stable_sort_permutation.
  - now rewrite <- (Permutation_length (stable_sort_permutation _ _)).
Qed.

Lemma dashboard_totals_up_to_ten (table : list Transactions.Transaction)
  (u : Auth.User) (now : Date) (st : State) :
  (List.length (eq_user_id (Auth.id u) table) <= 10)%nat ->
  let shown := data (snd (loadDashboardData (Some u) now
                            (storeQueries table) st)) in
  Data.monthlyIncome shown =n= userMonthTotal table (Auth.id u) now "income"
  /\ Data.monthlyExpenses shown
     =n= userMonthTotal table (Auth.id u) now "expense".
Proof.
  intros Hlen shown.
  destruct (dashboard_monthly_totals table u now st) as (_ & Hinc & Hexp).
  fold shown in Hinc, Hexp. rewrite Hinc, Hexp. unfold userMonthTotal.
  split; apply sumAmount_permutation, filter_permutation,
           transactionsQuery_all, Hlen.
Qed.

(** C1. The dashboard sums the current-month transactions of the ten
    most recent rows of the user only.  It agrees with the sums over all
    of the user's transactions of the month as long as the user has at
    most ten transactions; with eleven incomes of 100 followed by eleven
    expenses of 10 in the current month it shows a monthly income of 0
    and monthly expenses of 100, while the sums over all of the user's
    transactions of the month are 1100 and 110. *)
Theorem C1_monthly_totals_of_recent_rows :
  (forall (table : list Transactions.Transaction) (u : Auth.User)
          (now : Date) (st : State),
      let shown := data (snd (loadDashboardData (Some u) now
                                (storeQueries table) st)) in
      let recent := transactionsQuery table (Auth.id u) in
      let inCurrentMonth := inMonth (getMonth now) (getFullYear now) in
      Data.recentTransactions shown = recent
      /\ Data.monthlyIncome shown
         = sumAmount (filter (fun t => inCurrentMonth t && hasType "income" t)
                             recent)
      /\ Data.monthlyExpenses shown
         = sumAmount (filter (fun t => inCurrentMonth t && hasType "expense" t)
                             recent)
      /\ ((List.length (eq_user_id (Auth.id u) table) <= 10)%nat ->
          Data.monthlyIncome shown
          =n= userMonthTotal table (Auth.id u) now "income"
          /\ Data.monthlyExpenses shown
             =n= userMonthTotal table (Auth.id u) now "expense"))
  /\ (let shown := data (snd (loadDashboardData (Some sampleUser) march2024
                                (storeQueries busyMonth) initial)) in
      Data.monthlyIncome shown = Finite 0
      /\ userMonthTotal busyMonth "1" march2024 "income" = Finite 1100
      /\ Data.monthlyExpenses shown = Finite 100
      /\ userMonthTotal busyMonth "1" march2024 "expense" = Finite 110).
Proof.
  split.
  - intros table u now st shown recent inCurrentMonth.
    destruct (dashboard_monthly_totals table u now st) as (H1 & H2 & H3).
    split; [exact H1|]. split; [exact H2|]. split; [exact H3|].
    apply dashboard_totals_up_to_ten.
  - vm_compute. repeat split.
Qed.

Lemma C1_monthly_totals_of_recent_rows_witness :
  let shown := data (snd (loadDashboardData (Some sampleUser) march2024
                            (storeQueries groceriesThenDining) initial)) in
  Data.monthlyIncome shown
  =n= userMonthTotal groceriesThenDining "1" march2024 "income"
  /\ Data.monthlyExpenses shown
     =n= userMonthTotal groceriesThenDining "1" march2024 "expense".
Proof.
  apply (proj1 C1_monthly_totals_of_recent_rows groceriesThenDining
               sampleUser march2024 initial).
  simpl. lia.
Defined.

(** ** Grouping by category *)

Lemma firstSeen_In (c : string) (l : list string) :
  In c (firstSeen l) <-> In c l.
Proof.
  induction l as [|a l IH]; simpl; [tauto|].
  rewrite filter_In, IH, negb_true_iff, String.eqb_neq.
  destruct (String.eqb_spec a c) as [->|N]; [tauto|].
  split; [tauto|]. intros [E|H]; [contradiction|]. right. split; [exact H|].
  intro E. apply N. now symmetry.
Qed.

Lemma firstSeen_snoc (l : list string) (c : string) :
  firstSeen (l ++ [c]) = if in_dec string_dec c l then firstSeen l
                         else firstSeen l ++ [c].
Proof.
  induction l as [|a l IH]; [reflexivity|].
  cbn [app firstSeen]. rewrite IH.
  destruct (in_dec string_dec c l) as [Hin|Hout];
    destruct (in_dec string_dec c (a :: l)) as [Hin'|Hout'].
  - reflexivity.
  - exfalso. apply Hout'. now right.
  - destruct Hin' as [->|Hin']; [|contradiction].
    rewrite filter_app. cbn [filter]. rewrite String.eqb_refl. cbn [negb].
    now rewrite app_nil_r.
  - rewrite filter_app. cbn [filter].
    destruct (String.eqb_spec c a) as [->|N].
    + exfalso. apply Hout'. now left.
    + reflexivity.
Qed.

Lemma firstSeen_NoDup (l : list string) : NoDup (firstSeen l).
Proof.
  induction l as [|a l IH]; simpl; constructor.
  - rewrite filter_In, String.eqb_refl. intros [_ H]. discriminate H.
  - now apply NoDup_filter.
Qed.

Lemma addToCategory_cats (acc : list CategoryTotal) (c : string) (a : number) :
  map cat (addToCategory acc c a)
  = if in_dec string_dec c (map cat acc) then map cat acc
    else map cat acc ++ [c].
Proof.
  induction acc as [|e acc IH]; [reflexivity|].
  cbn [addToCategory map].
  destruct (String.eqb_spec (cat e) c) as [E|N].
  - destruct (in_dec string_dec c (cat e :: map cat acc)) as [_|Hout].
    + reflexivity.
    + exfalso. apply Hout. now left.
  - cbn [map]. rewrite IH.
    destruct (in_dec string_dec c (map cat acc)) as [Hin|Hout];
      destruct (in_dec string_dec c (cat e :: map cat acc)) as [Hin'|Hout'].
    + reflexivity.
    + exfalso. apply Hout'. now right.
    + destruct Hin' as [E|Hin']; [contradiction|contradiction].
    + reflexivity.
Qed.

Lemma groupByCategory_snoc (ts : list Transactions.Transaction)
  (t : Transactions.Transaction) :
  groupByCategory (ts ++ [t])
  = addToCategory (groupByCategory ts) (Transactions.category t)
                  (Number (Transactions.amount t)).
Proof. unfold groupByCategory. now rewrite fold_left_app. Qed.

Lemma groupByCategory_cats (ts : list Transactions.Transaction) :
  map cat (groupByCategory ts) = firstSeen (map Transactions.category ts).
Proof.
  induction ts as [|t ts IH] using rev_ind; [reflexivity|].
  rewrite groupByCategory_snoc, addToCategory_cats, map_app.
  cbn [map]. rewrite firstSeen_snoc, IH.
  destruct (in_dec string_dec _ (firstSeen _)) as [Hin|Hout];
    destruct (in_dec string_dec _ (map Transactions.category ts))
      as [Hin'|Hout'];
    try reflexivity.
  - exfalso. apply Hout'. now apply firstSeen_In.
  - exfalso. apply Hout. now apply firstSeen_In.
Qed.

Lemma addToCategory_In (acc : list CategoryTotal) (c : string) (a : number)
  (g : CategoryTotal) :
  NoDup (map cat acc) ->
  In g (addToCategory acc c a) ->
  (In g acc /\ cat g <> c)
  \/ (exists e, In e acc /\ cat e = c
                /\ g = {| cat := cat e; total := (total e + a)%js |})
  \/ (~ In c (map cat acc) /\ g = {| cat := c; total := a |}).
Proof.
  induction acc as [|e acc IH]; intros Hnd Hin.
  - destruct Hin as [<-|[]]. right. right. split; [intros []|reflexivity].
  - cbn [addToCategory] in Hin. cbn [map] in Hnd.
    apply NoDup_cons_iff in Hnd as [Hout Hnd].
    destruct (String.eqb_spec (cat e) c) as [E|N].
    + destruct Hin as [<-|Hin].
      * right. left. exists e. repeat split; [now left|exact E].
      * left. split; [now right|].
        intro Eg. apply Hout. rewrite E, <- Eg. now apply in_map.
    + destruct Hin as [<-|Hin].
      * left. split; [now left|exact N].
      * destruct (IH Hnd Hin) as [[H1 H2]|[(e' & H1 & H2 & H3)|[H1 H2]]].
        -- left. split; [now right|exact H2].
        -- right. left. exists e'. repeat split; [now right|exact H2|exact H3].
        -- right. right. split; [|exact H2].
           intros [E|H]; [contradiction|contradiction].
Qed.

Lemma categorySum_snoc (c : string) (ts : list Transactions.Transaction)
  (t : Transactions.Transaction) :
  categorySum c (ts ++ [t])
  = if String.eqb (Transactions.category t) c
    then (categorySum c ts + Transactions.amount t)%Q
    else categorySum c ts.
Proof.
  unfold categorySum. rewrite filter_app. cbn [filter].
  destruct (String.eqb (Transactions.category t) c).
  - rewrite map_app, fold_left_app. reflexivity.
  - now rewrite app_nil_r.
Qed.

Lemma categorySum_absent (c : string) (ts : list Transactions.Transaction) :
  ~ In c (map Transactions.category ts) -> categorySum c ts = 0%Q.
Proof.
  intro H. unfold categorySum. rewrite filter_none; [reflexivity|].
  intros t Ht. apply String.eqb_neq. intro E. apply H.
  rewrite <- E. now apply in_map.
Qed.

Lemma groupByCategory_totals (ts : list Transactions.Transaction)
  (g : CategoryTotal) :
  In g (groupByCategory ts) ->
  total g =n= Finite (categorySum (cat g) ts).
Proof.
  revert g. induction ts as [|t ts IH] using rev_ind; intros g Hin.
  - destruct Hin.
  - rewrite groupByCategory_snoc in Hin. rewrite categorySum_snoc.
    apply addToCategory_In in Hin;
      [|rewrite groupByCategory_cats; apply firstSeen_NoDup].
    destruct Hin as [[H1 H2]|[(e & H1 & H2 & ->)|[H1 ->]]].
    + apply String.eqb_neq in H2. rewrite String.eqb_sym, H2. now apply IH.
    + cbn [cat total]. rewrite H2, String.eqb_refl.
      specialize (IH e H1). rewrite H2 in IH.
      destruct (total e) as [q| | |]; simpl in IH; try contradiction.
      simpl. now rewrite IH.
    + cbn [cat total]. rewrite String.eqb_refl.
      rewrite categorySum_absent.
      * simpl. now rewrite Qplus_0_l.
      * rewrite groupByCategory_cats in H1. now rewrite firstSeen_In in H1.
Qed.

(** ** Ordering the groups *)

Lemma Qlt_bool_iff (a b : Q) : Qlt_bool a b = true <-> (a < b)%Q.
Proof.
  unfold Qlt_bool. rewrite negb_true_iff. split.
  - intro H. apply Qnot_le_lt. intro L.
    apply (proj2 (Qle_bool_iff _ _)) in L. congruence.
  - intro H. destruct (Qle_bool b a) eqn:E; [|reflexivity].
    apply Qle_bool_imp_le in E. exfalso. exact (Qlt_not_le _ _ H E).
Qed.

Lemma behind_finite (x y : CategoryTotal) (qx qy : Q) :
  total x = Finite qx -> total y = Finite qy ->
  behind x y = true <-> (qx < qy)%Q.
Proof.
  intros Ex Ey. unfold behind, compareTotal. rewrite Ex, Ey. simpl.
  rewrite Qlt_bool_iff. symmetry. apply Qlt_minus_iff.
Qed.

Lemma behind_true (x y : CategoryTotal) :
  finiteTotal x -> finiteTotal y -> behind x y = true -> descending y x.
Proof.
  intros [qx Ex] [qy Ey] H. apply (behind_finite x y qx qy Ex Ey) in H.
  unfold descending. rewrite Ex, Ey. simpl. now apply Qlt_le_weak.
Qed.

Lemma behind_false (x y : CategoryTotal) :
  finiteTotal x -> finiteTotal y -> behind x y = false -> descending x y.
Proof.
  intros [qx Ex] [qy Ey] H. unfold descending. rewrite Ex, Ey. simpl.
  apply Qnot_lt_le. intro L.
  apply (behind_finite x y qx qy Ex Ey) in L. congruence.
Qed.

Lemma descending_trans (x y z : CategoryTotal) :
  finiteTotal x -> finiteTotal y -> finiteTotal z ->
  descending x y -> descending y z -> descending x z.
Proof.
  intros [qx Ex] [qy Ey] [qz Ez]. unfold descending.
  rewrite Ex, Ey, Ez. simpl. intros H1 H2. now apply (Qle_trans _ qy).
Qed.

Lemma num_eqb_eq (a b : number) : num_eqb a b = true <-> a =n= b.
Proof.
  destruct a, b; simpl; try (split; [discriminate|contradiction]);
    try tauto.
  apply Qeq_bool_iff.
Qed.

(** Two groups whose totals are the same value are never exchanged. *)
Lemma behind_same_total (v : number) (x y : CategoryTotal) :
  behind x y = true ->
  num_eqb (total x) v = true -> num_eqb (total y) v = false.
Proof.
  unfold behind, compareTotal. intros H Px.
  destruct (num_eqb (total y) v) eqn:Py; [exfalso|reflexivity].
  apply num_eqb_eq in Px, Py.
  destruct (total x) as [qx| | |], (total y) as [qy| | |], v as [qv| | |];
    simpl in *; try contradiction; try discriminate.
  apply Qlt_bool_iff in H. rewrite Px, Py in H.
  rewrite Qplus_opp_r in H. exact (Qlt_irrefl _ H).
Qed.

Lemma groups_finite (ts : list Transactions.Transaction) :
  Forall finiteTotal (groupByCategory ts).
Proof.
  apply Forall_forall. intros g Hg.
  pose proof (groupByCategory_totals ts g Hg) as H.
  destruct (total g) as [q| | |] eqn:E; simpl in H; try contradiction.
  now exists q.
Qed.

Lemma sort_groups (ts : list Transactions.Transaction) :
  let groups := groupByCategory ts in
  let sorted := JSArray.sort compareTotal groups in
  Permutation groups sorted
  /\ forall x y,
       JSArray.precedes x y sorted ->
       descending x y
       /\ (total x =n= total y -> JSArray.precedes x y groups).
Proof.
  cbv zeta. unfold JSArray.sort. fold behind. split.
  - apply stable_sort_permutation.
  - intros x y H. split.
    + refine (precedes_sorted descending x y _ _ H).
      apply (stable_sort_sorted behind finiteTotal descending
               descending_trans behind_true behind_false).
      apply groups_finite.
    + intro E.
      set (p := fun g : CategoryTotal => num_eqb (total g) (total x)).
      apply (precedes_filter p).
      rewrite <- (filter_stable_sort behind p (behind_same_total (total x))).
      apply filter_precedes; [| |exact H]; unfold p; apply num_eqb_eq.
      * apply num_eq_refl.
      * now apply num_eq_sym.
Qed.

(** C2. The roll-up groups the expense transactions by category, one
    group per category in the order in which the categories are first
    encountered, each with the sum of the amounts of its category; it
    arranges the groups by descending sum, groups of equal sum staying in
    the order of first encounter, and keeps the first 5.  For the expense
    Groceries 150 followed by the expense Dining 50 the result is
    Groceries 150, Dining 50; for no transactions it is empty. *)
Theorem C2_top_categories :
  expensesByCategory groceriesThenDining
  = [ {| cat := "Groceries"; total := Finite 150 |};
      {| cat := "Dining"; total := Finite 50 |} ]
  /\ Data.expensesByCategory
       (data (snd (loadDashboardData (Some sampleUser) march2024
                     (storeQueries groceriesThenDining) initial)))
     = [ {| cat := "Groceries"; total := Finite 150 |};
         {| cat := "Dining"; total := Finite 50 |} ]
  /\ expensesByCategory [] = []
  /\ forall ts : list Transactions.Transaction,
       let expenseRows := filter (hasType "expense") ts in
       let encountered := firstSeen (map Transactions.category expenseRows) in
       exists groups sorted : list CategoryTotal,
         map cat groups = encountered
         /\ (forall g, In g groups ->
               total g =n= Finite (categorySum (cat g) expenseRows))
         /\ Permutation groups sorted
         /\ (forall x y,
               JSArray.precedes x y sorted ->
               le (total y) (total x)
               /\ (total x =n= total y ->
                   JSArray.precedes (cat x) (cat y) encountered))
         /\ expensesByCategory ts = firstn 5 sorted
         /\ (List.length (expensesByCategory ts) <= 5)%nat.
Proof.
  split; [reflexivity|]. split; [reflexivity|]. split; [reflexivity|].
  intros ts expenseRows encountered.
  exists (groupByCategory expenseRows),
         (JSArray.sort compareTotal (groupByCategory expenseRows)).
  destruct (sort_groups expenseRows) as [Hperm Hord].
  split; [apply groupByCategory_cats|].
  split; [apply groupByCategory_totals|].
  split; [exact Hperm|].
  split; [|split].
  - intros x y H. destruct (Hord x y H) as [Hdesc Hstable].
    split; [exact Hdesc|]. intro E.
    unfold encountered. rewrite <- groupByCategory_cats.
    apply precedes_map. now apply Hstable.
  - reflexivity.
  - unfold expensesByCategory, JSArray.slice0. rewrite length_firstn.
    apply Nat.le_min_l.
Qed.

Lemma C2_top_categories_witness :
  exists groups sorted : list CategoryTotal,
    map cat groups = ["Groceries"; "Dining"]
    /\ expensesByCategory groceriesThenDining = firstn 5 sorted.
Proof.
  destruct (proj2 (proj2 (proj2 C2_top_categories)) groceriesThenDining)
    as (groups & sorted & Hcats & _ & _ & _ & Hres & _).
  exists groups, sorted. split; [exact Hcats|exact Hres].
Defined.

(** ** Six-month series *)

Lemma newDate_monthsBefore (now : Date) (k : Z) :
  ~ (0 <= getFullYear now <= 99) ->
  let d := newDate (getFullYear now) (getMonth now - k) in
  (getFullYear d, getMonth d) = monthsBefore now k.
Proof.
  intros Hy. unfold newDate, monthsBefore, monthIndex.
  cbn [getFullYear getMonth].
  replace ((0 <=? getFullYear now)%Z && (getFullYear now <=? 99)%Z) with false
    by (symmetry; apply andb_false_iff; lia).
  replace (getFullYear now * 12 + getMonth now - k)
    with (getMonth now - k + getFullYear now * 12) by lia.
  rewrite Z.div_add by lia. rewrite Z.mod_add by lia.
  f_equal. lia.
Qed.

Lemma monthsBefore_index (now : Date) (k : Z) :
  let '(y, m) := monthsBefore now k in
  0 <= m < 12
  /\ monthIndex y m = monthIndex (getFullYear now) (getMonth now) - k.
Proof.
  unfold monthsBefore, monthIndex.
  set (idx := getFullYear now * 12 + getMonth now - k).
  split.
  - apply Z.mod_pos_bound. lia.
  - pose proof (Z.div_mod idx 12). lia.
Qed.

Lemma seriesEntry_empty_month (data : option (list Transactions.Transaction)) (y m : Z) :
  (forall t, In t (rowsOf data) -> inMonth m y t = false) ->
  income (seriesEntry data (y, m)) = zero
  /\ expenses (seriesEntry data (y, m)) = zero.
Proof.
  intro H. simpl.
  assert (E : filterData (inMonth m y) data = []).
  { destruct data as [rows|]; simpl; [|reflexivity]. now apply filter_none. }
  rewrite E. split; reflexivity.
Qed.

Lemma incomeVsExpenses_series (data : option (list Transactions.Transaction))
  (now : Date) :
  ~ (0 <= getFullYear now <= 99) ->
  incomeVsExpenses data now
  = map (fun k => seriesEntry data (monthsBefore now k)) [5; 4; 3; 2; 1; 0].
Proof.
  intro Hy. unfold incomeVsExpenses, last6Months.
  rewrite map_map.
  change [5; 4; 3; 2; 1; 0] with (map (fun i => 5 - i) [0; 1; 2; 3; 4; 5]).
  rewrite map_map. apply map_ext. intro i.
  pose proof (newDate_monthsBefore now (5 - i) Hy) as H. cbv zeta in H.
  cbn [month monthNum year]. unfold monthShort.
  destruct (monthsBefore now (5 - i)) as [y m].
  pose proof (f_equal fst H) as H1. pose proof (f_equal snd H) as H2.
  cbn [fst snd] in H1, H2. rewrite H1, H2. reflexivity.
Qed.

(** C3. For every list of transactions and every clock reading [now]
    (a month number in 0..11, a year outside 0..99), the six-month series
    has exactly 6 entries: in this order, the entries of the calendar
    months 5, 4, 3, 2, 1 and 0 months before the month of [now], each with
    the sums of the income and of the expense transactions dated in that
    month.  A month without transactions has the entry with income 0 and
    expenses 0; for an empty list all six entries are zero. *)
Theorem C3_six_month_series :
  forall (data : option (list Transactions.Transaction)) (now : Date),
    0 <= getMonth now < 12 ->
    ~ (0 <= getFullYear now <= 99) ->
    List.length (incomeVsExpenses data now) = 6%nat
    /\ incomeVsExpenses data now
       = map (fun k => seriesEntry data (monthsBefore now k))
             [5; 4; 3; 2; 1; 0]
    /\ (forall k : Z,
          let '(y, m) := monthsBefore now k in
          0 <= m < 12
          /\ monthIndex y m
             = monthIndex (getFullYear now) (getMonth now) - k)
    /\ monthsBefore now 0 = (getFullYear now, getMonth now)
    /\ (forall y m : Z,
          (forall t, In t (rowsOf data) -> inMonth m y t = false) ->
          income (seriesEntry data (y, m)) = zero
          /\ expenses (seriesEntry data (y, m)) = zero)
    /\ map (fun e => (income e, expenses e)) (incomeVsExpenses (Some []) now)
       = repeat (zero, zero) 6.
Proof.
  intros data now Hm Hy.
  pose proof (incomeVsExpenses_series data now Hy) as E.
  split; [|split; [|split; [|split; [|split]]]].
  - rewrite E. reflexivity.
  - exact E.
  - intro k. apply monthsBefore_index.
  - unfold monthsBefore, monthIndex. rewrite Z.sub_0_r.
    rewrite Z.add_comm, Z.div_add by lia. rewrite Z.mod_add by lia.
    rewrite Z.div_small, Z.mod_small by lia. reflexivity.
  - apply seriesEntry_empty_month.
  - rewrite (incomeVsExpenses_series (Some []) now Hy).
    cbn [map]. repeat (destruct (monthsBefore now _) as [? ?]). reflexivity.
Qed.

Lemma C3_six_month_series_witness :
  List.length (incomeVsExpenses (Some []) march2024) = 6%nat
  /\ map entry_month (incomeVsExpenses (Some []) march2024)
     = ["Oct"; "Nov"; "Dec"; "Jan"; "Feb"; "Mar"].
Proof.
  assert (Hm : 0 <= getMonth march2024 < 12) by (simpl; lia).
  assert (Hy : ~ (0 <= getFullYear march2024 <= 99)) by (simpl; lia).
  destruct (C3_six_month_series (Some []) march2024 Hm Hy) as (Hlen & E & _).
  split.
  - exact Hlen.
  - rewrite E. reflexivity.
Defined.

(** ** Advisor *)

Lemma generateAIResponse_firstMatch (userMessage : string) :
  Chat.generateAIResponse userMessage = Chat.firstMatchReply userMessage.
Proof.
  unfold Chat.generateAIResponse, Chat.firstMatchReply.
  cbv [Chat.priority Chat.matches Chat.keywords find existsb].
  generalize (toLowerCase userMessage) as lowerMessage. intro lowerMessage.
  repeat match goal with
         | |- context [includes lowerMessage ?k] =>
             destruct (includes lowerMessage k); cbn [orb];
             try reflexivity
         end.
Qed.

Lemma firstMatchReply_fixed (userMessage : string) :
  In (Chat.firstMatchReply userMessage)
     (map Chat.reply Chat.priority ++ [Chat.fallbackReply])%list.
Proof.
  unfold Chat.firstMatchReply.
  destruct (find _ Chat.priority) as [r|] eqn:E.
  - apply in_or_app. left. apply in_map.
    apply find_some in E. apply E.
  - apply in_or_app. right. left. reflexivity.
Qed.

Lemma handleSend_reply (u : Auth.User) (s : Chat.State) :
  trim (Chat.input s) <> "" ->
  Chat.chat_conversations
    (snd (Chat.handleSend (Some u) (fun _ => None) s))
  = (Chat.chat_conversations s
    ++ [ {| Chat.user_id := Auth.id u;
            Chat.message := trim (Chat.input s);
            Chat.sender := "user" |};
         {| Chat.user_id := Auth.id u;
            Chat.message := Chat.generateAIResponse (trim (Chat.input s));
            Chat.sender := "ai" |} ])%list.
Proof.
  intro H. unfold Chat.handleSend.
  destruct (trim (Chat.input s)) as [|c rest] eqn:E; [contradiction|].
  cbv [bind try_catch_finally Chat.setInput Chat.setLoading modify
       Chat.insert Chat.throwIfError ret Chat.loadMessages try_catch
       Chat.setMessages snd Chat.chat_conversations Chat.messages
       Chat.input Chat.loading Chat.console].
  rewrite <- app_assoc. reflexivity.
Qed.

(** C8. For every input string the responder returns exactly one reply:
    the reply of the first rule, in the order budget/spend, save,
    debt/loan, invest, credit score, retire, emergency fund, greeting,
    thanks, one of whose keywords occurs in the lower-cased input, and the
    fallback reply when no rule matches.  The reply stored by [handleSend]
    is a function of the text typed in only: two views with the same
    input and different histories store the same reply. *)
Theorem C8_advisor_first_match :
  (forall userMessage : string,
      Chat.generateAIResponse userMessage = Chat.firstMatchReply userMessage)
  /\ (forall userMessage : string,
        In (Chat.generateAIResponse userMessage)
           (map Chat.reply Chat.priority ++ [Chat.fallbackReply])%list)
  /\ (forall (u : Auth.User) (s1 s2 : Chat.State),
        Chat.input s1 = Chat.input s2 ->
        trim (Chat.input s1) <> "" ->
        exists userRow aiRow,
          Chat.added s1 (snd (Chat.handleSend (Some u) (fun _ => None) s1))
                [userRow; aiRow]
          /\ Chat.added s2 (snd (Chat.handleSend (Some u) (fun _ => None) s2))
                   [userRow; aiRow]
          /\ Chat.sender aiRow = "ai"
          /\ Chat.message aiRow
             = Chat.generateAIResponse (trim (Chat.input s1)))
  /\ Chat.generateAIResponse "How do I SAVE on my Budget?" = Chat.budgetReply
  /\ Chat.generateAIResponse "Should I save or invest?" = Chat.saveReply
  /\ Chat.generateAIResponse "my loan and my credit score" = Chat.debtReply
  /\ Chat.generateAIResponse "stock tips" = Chat.investReply
  /\ Chat.generateAIResponse "What is a credit score?" = Chat.creditScoreReply
  /\ Chat.generateAIResponse "When can I retire?" = Chat.retireReply
  /\ Chat.generateAIResponse "emergency fund" = Chat.emergencyFundReply
  /\ Chat.generateAIResponse "Hey" = Chat.greetingReply
  /\ Chat.generateAIResponse "Thank you" = Chat.thanksReply
  /\ Chat.generateAIResponse "What now?" = Chat.fallbackReply.
Proof.
  split; [apply generateAIResponse_firstMatch|].
  split.
  { intro m. rewrite generateAIResponse_firstMatch.
    apply firstMatchReply_fixed. }
  split.
  { intros u s1 s2 Hin Hne.
    eexists. eexists. unfold Chat.added.
    split; [apply handleSend_reply, Hne|].
    split; [|split; reflexivity].
    rewrite Hin in *. apply handleSend_reply, Hne. }
  repeat split; vm_compute; reflexivity.
Qed.

Lemma C8_advisor_first_match_witness :
  exists userRow aiRow,
    Chat.added freshChat
          (snd (Chat.handleSend (Some sampleUser) (fun _ => None) freshChat))
          [userRow; aiRow]
    /\ Chat.added busyChat
             (snd (Chat.handleSend (Some sampleUser) (fun _ => None) busyChat))
             [userRow; aiRow]
    /\ Chat.sender aiRow = "ai"
    /\ Chat.message aiRow
       = Chat.generateAIResponse (trim (Chat.input freshChat)).
Proof.
  apply (proj1 (proj2 (proj2 C8_advisor_first_match))
               sampleUser freshChat busyChat).
  - reflexivity.
  - vm_compute. discriminate.
Defined.

(* ================================================================== *)
(** * Further properties *)

(** ** Loans view *)

Lemma sum_from {A : Type} (f : A -> Q) (l : list A) (a : Q) :
  fold_left (fun sum x => (sum + Number (f x))%js) l (Finite a)
  = Finite (fold_left Qplus (map f l) a).
Proof.
  revert a. induction l as [|x l IH]; intro a; simpl; [reflexivity|].
  apply IH.
Qed.

Lemma Qdiv_times (x p : Q) : ~ (p == 0)%Q -> (x / p * p == x)%Q.
Proof. intro H. rewrite Qmult_comm. now apply Qmult_div_r. Qed.

(** X1. The months remaining on a loan are never negative.  They count
    the calendar months from the current month to the month of the end
    date as the local time zone reads it: the month the date-only string
    names or, in a time zone behind UTC when the day is the 1st, the
    month before.  They are 0 exactly when that month is the current
    month or an earlier one.  Seen from March 2024 in a time zone behind
    UTC, the 1st of August is 4 months away and the 2nd is 5. *)
Theorem months_remaining_floor :
  forall (now : Date) (behindUTC : bool) (endDate : DateOnly),
    1 <= isoDay endDate ->
    1 <= isoMonth endDate <= 12 ->
    let r := Loans.calculateMonthsRemaining now behindUTC endDate in
    let nowIdx := monthIndex (getFullYear now) (getMonth now) in
    let endIdx :=
      monthIndex (isoYear endDate) (isoMonth endDate - 1)
      - (if behindUTC && (isoDay endDate =? 1) then 1 else 0) in
    0 <= r
    /\ (endIdx <= nowIdx <-> r = 0)
    /\ (nowIdx <= endIdx -> nowIdx + r = endIdx)
    /\ Loans.calculateMonthsRemaining march2024 true firstOfAugust = 4
    /\ Loans.calculateMonthsRemaining march2024 true secondOfAugust = 5
    /\ Loans.calculateMonthsRemaining march2024 false firstOfAugust = 5.
Proof.
  intros now behindUTC endDate Hd Hm.
  unfold Loans.calculateMonthsRemaining, parseDateOnly, monthIndex.
  cbv zeta.
  destruct behindUTC; cbn [negb andb].
  - destruct (Z.ltb_spec 1 (isoDay endDate)).
    + destruct (Z.eqb_spec (isoDay endDate) 1); [lia|].
      cbn [getFullYear getMonth]. repeat split; try lia; reflexivity.
    + destruct (Z.eqb_spec (isoDay endDate) 1); [|lia].
      destruct (Z.ltb_spec 0 (isoMonth endDate - 1));
        cbn [getFullYear getMonth]; repeat split; try lia; reflexivity.
  - cbn [getFullYear getMonth]. repeat split; try lia; reflexivity.
Qed.

Lemma months_remaining_floor_witness :
  monthIndex 2024 2 + Loans.calculateMonthsRemaining march2024 true firstOfAugust
  = monthIndex 2024 (8 - 1) - 1.
Proof.
  apply (proj1 (proj2 (proj2
           (months_remaining_floor march2024 true firstOfAugust
              ltac:(simpl; lia) ltac:(simpl; lia))))).
  unfold monthIndex. simpl. lia.
Defined.

(** X2. For a loan with a positive principal the repayment progress lies
    between 0 and 100 when the current balance lies between 0 and the
    principal; it is at least 100 when the balance is 0 or negative and
    at most 0 when the balance is the principal or more; it is 100 for a
    balance of 0 and 0 for a balance equal to the principal. *)
Theorem loan_progress_range :
  forall loan : Loans.Loan,
    (0 < Loans.principal_amount loan)%Q ->
    ((0 <= Loans.current_balance loan)%Q
     /\ (Loans.current_balance loan <= Loans.principal_amount loan)%Q ->
     between 0 100 (Loans.progress loan))
    /\ ((Loans.current_balance loan <= 0)%Q ->
        le (Finite 100) (Loans.progress loan))
    /\ ((Loans.principal_amount loan <= Loans.current_balance loan)%Q ->
        le (Loans.progress loan) (Finite 0))
    /\ ((Loans.current_balance loan == 0)%Q ->
        Loans.progress loan =n= Finite 100)
    /\ ((Loans.current_balance loan == Loans.principal_amount loan)%Q ->
        Loans.progress loan =n= Finite 0).
Proof.
  intros loan Hp. unfold Loans.progress.
  set (p := Loans.principal_amount loan) in *.
  set (c := Loans.current_balance loan) in *.
  assert (Hnz : ~ (p == 0)%Q) by (intro E; rewrite E in Hp; discriminate Hp).
  rewrite (loan_progress_nonzero c p Hnz). cbn [between num_eq le].
  pose proof (Qdiv_times (p - c) p Hnz) as E.
  set (r := ((p - c) / p)%Q) in *.
  split; [|split; [|split; [|split]]].
  - intros [H1 H2]. split; nra.
  - intro H. nra.
  - intro H. nra.
  - intro Z. nra.
  - intro Z. nra.
Qed.

Lemma loan_progress_range_witness :
  between 0 100 (Loans.progress quarterPaidLoan).
Proof.
  assert (Hp : (0 < Loans.principal_amount quarterPaidLoan)%Q)
    by reflexivity.
  apply (proj1 (loan_progress_range quarterPaidLoan Hp)).
  split; discriminate.
Defined.

(** X3. For a goal with a positive target, the remaining amount is
    target minus current, and the progress shown is 100 exactly when
    nothing remains (the remaining amount is zero or negative); the
    progress never exceeds 100. *)
Theorem goal_complete_iff_nothing_remains :
  forall goal : Goals.Goal,
    (0 < Goals.target_amount goal)%Q ->
    Goals.remaining goal
    = Finite (Goals.target_amount goal - Goals.current_amount goal)
    /\ (Goals.progress goal =n= Finite 100
        <-> le (Goals.remaining goal) zero)
    /\ (le (Goals.progress goal) (Finite 100)).
Proof.
  intros goal Ht. unfold Goals.progress, Goals.remaining.
  set (t := Goals.target_amount goal) in *.
  set (c := Goals.current_amount goal) in *.
  assert (Hnz : ~ (t == 0)%Q) by (intro E; rewrite E in Ht; discriminate Ht).
  pose proof (goal_progress_nonzero c t Hnz) as E.
  pose proof (Qdiv_times c t Hnz) as D.
  set (r := (c / t)%Q) in *.
  split; [reflexivity|]. split.
  - destruct (Goals.calculateProgress (Number c) (Number t)) as [q| | |];
      simpl in E; try contradiction.
    cbn [num_eq le zero Number sub add neg]. rewrite E.
    destruct (Q.min_spec (r * 100) 100) as [[H1 H2]|[H1 H2]]; rewrite H2.
    + split; intro H; nra.
    + split; intro H; [nra|reflexivity].
  - apply (le_eq_l _ _ _ E). apply Q.le_min_r.
Qed.

Lemma goal_complete_iff_nothing_remains_witness :
  Goals.remaining halfwayGoal = Finite (10000 - 5000)
  /\ le (Goals.progress halfwayGoal) (Finite 100).
Proof.
  assert (Ht : (0 < Goals.target_amount halfwayGoal)%Q) by reflexivity.
  destruct (goal_complete_iff_nothing_remains halfwayGoal Ht)
    as (H1 & _ & H3).
  split; [exact H1|exact H3].
Defined.

(** ** Totals *)

Lemma Qsum_from_nonneg (l : list Q) (a : Q) :
  (forall x, In x l -> (0 <= x)%Q) -> (a <= fold_left Qplus l a)%Q.
Proof.
  revert a. induction l as [|x l IH]; intros a H; simpl.
  - apply Qle_refl.
  - apply (Qle_trans _ (a + x)).
    + rewrite <- (Qplus_0_r a) at 1. apply Qplus_le_r. apply H. now left.
    + apply IH. intros y Hy. apply H. now right.
Qed.

Lemma column_total {A : Type} (f : A -> Q) (l : list A) :
  fold_left (fun sum x => (sum + Number (f x))%js) l zero
  = Finite (Qsum (map f l)).
Proof. apply sum_from. Qed.

(** X4. The total debt and the total of monthly payments of the loans
    view and the total balance of the accounts view are 0 for no rows.
    The total debt is not negative when no balance is negative, and a
    further row with a balance that is not negative never lowers a
    total; a further account with a balance that is not positive (a
    credit card) never raises the total balance. *)
Theorem view_totals_monotone :
  forall (loans : list Loans.Loan) (loan : Loans.Loan)
         (accounts : list Accounts.Account) (account : Accounts.Account),
    Loans.totalDebt [] = zero
    /\ Loans.totalMonthlyPayments [] = zero
    /\ Accounts.totalBalance [] = zero
    /\ ((forall l, In l loans -> (0 <= Loans.current_balance l)%Q) ->
        le zero (Loans.totalDebt loans))
    /\ ((0 <= Loans.current_balance loan)%Q ->
        le (Loans.totalDebt loans) (Loans.totalDebt (loans ++ [loan])))
    /\ ((0 <= Loans.monthly_payment loan)%Q ->
        le (Loans.totalMonthlyPayments loans)
           (Loans.totalMonthlyPayments (loans ++ [loan])))
    /\ ((0 <= Accounts.balance account)%Q ->
        le (Accounts.totalBalance accounts)
           (Accounts.totalBalance (accounts ++ [account])))
    /\ ((Accounts.balance account <= 0)%Q ->
        le (Accounts.totalBalance (accounts ++ [account]))
           (Accounts.totalBalance accounts)).
Proof.
  intros loans loan accounts account.
  unfold Loans.totalDebt, Loans.totalMonthlyPayments, Accounts.totalBalance.
  rewrite !fold_left_app, !column_total. cbn [fold_left].
  split; [reflexivity|]. split; [reflexivity|]. split; [reflexivity|].
  unfold zero, Number. cbn [add le].
  split; [|split; [|split; [|split]]].
  - intro H. unfold Qsum. apply Qsum_from_nonneg.
    intros x Hx. apply in_map_iff in Hx as (l & <- & Hl). now apply H.
  - intro H. lra.
  - intro H. lra.
  - intro H. lra.
  - intro H. lra.
Qed.

Lemma view_totals_monotone_witness :
  le zero (Loans.totalDebt [sampleLoan; quarterPaidLoan])
  /\ le (Loans.totalDebt [sampleLoan])
        (Loans.totalDebt ([sampleLoan] ++ [quarterPaidLoan])).
Proof.
  destruct (view_totals_monotone [sampleLoan; quarterPaidLoan]
              quarterPaidLoan [] sampleAccount) as (_ & _ & _ & H & _).
  destruct (view_totals_monotone [sampleLoan] quarterPaidLoan [] sampleAccount)
    as (_ & _ & _ & _ & H' & _).
  split.
  - apply H. intros l [<-|[<-|[]]]; discriminate.
  - apply H'. discriminate.
Defined.

Lemma orZero_finite (q : Q) : orZero (Some (Finite q)) =n= Finite q.
Proof.
  simpl. destruct (Qeq_bool q 0) eqn:E; simpl; [|reflexivity].
  apply Qeq_bool_eq in E. now symmetry.
Qed.

Lemma sumColumn_exact (column : list Q) :
  sumColumn column = Finite (Qsum column).
Proof.
  unfold sumColumn, Qsum. rewrite <- (map_id column) at 2.
  apply (sum_from (fun x => x)).
Qed.

Lemma loadDashboardData_totals (u : Auth.User) (now : Date) (q : Queries)
  (st : State) accountsRes transactionsRes loansRes goalsRes profileRes :
  allQueries q (Auth.id u)
  = Fulfilled (accountsRes, transactionsRes, loansRes, goalsRes, profileRes) ->
  let d := data (snd (loadDashboardData (Some u) now q st)) in
  Data.totalBalance d
  = orZero (option_map sumColumn (Supabase.data accountsRes))
  /\ Data.totalLoans d
     = orZero (option_map sumColumn (Supabase.data loansRes))
  /\ Data.activeGoals d
     = match Supabase.data goalsRes with
       | Some rows => List.length rows
       | None => 0%nat
       end.
Proof.
  intro H. unfold loadDashboardData, try_catch_finally, bind.
  rewrite H. simpl. repeat split.
Qed.

(** X5. When the dashboard reads the balances of the accounts and the
    current balances of the loans that the accounts and loans views
    show, its total balance equals the total balance of the accounts
    view, its total of loans equals the total debt of the loans view,
    the net worth is the sum of the balances minus the sum of the loan
    balances, and the number of active goals is the number of goal
    rows. *)
Theorem dashboard_totals_agree_with_views :
  forall (accounts : list Accounts.Account) (loans : list Loans.Loan)
         (transactions : list Transactions.Transaction)
         (goals : list string) (u : Auth.User) (now : Date) (st : State),
    let d := data (snd (loadDashboardData (Some u) now
                          (dashboardReads accounts loans transactions goals)
                          st)) in
    Data.totalBalance d =n= Accounts.totalBalance accounts
    /\ Data.totalLoans d =n= Loans.totalDebt loans
    /\ netWorth d
       =n= Finite (Qsum (map Accounts.balance accounts)
                   - Qsum (map Loans.current_balance loans))
    /\ Data.activeGoals d = List.length goals.
Proof.
  intros accounts loans transactions goals u now st.
  destruct (loadDashboardData_totals u now
              (dashboardReads accounts loans transactions goals) st
              _ _ _ _ _ eq_refl) as (Hb & Hl & Hg).
  cbv zeta. unfold netWorth. rewrite Hb, Hl, Hg.
  cbn [Supabase.data option_map]. rewrite !sumColumn_exact.
  unfold Accounts.totalBalance, Loans.totalDebt. rewrite !column_total.
  pose proof (orZero_finite (Qsum (map Accounts.balance accounts))) as Ea.
  pose proof (orZero_finite (Qsum (map Loans.current_balance loans))) as El.
  split; [exact Ea|]. split; [exact El|]. split; [|reflexivity].
  destruct (orZero (Some (Finite (Qsum (map Accounts.balance accounts)))))
    as [a| | |]; simpl in Ea; try contradiction.
  destruct (orZero (Some (Finite (Qsum (map Loans.current_balance loans)))))
    as [l| | |]; simpl in El; try contradiction.
  simpl. now rewrite Ea, El.
Qed.

(** X6. When the store reports an error for the accounts, loans and
    goals reads of the dashboard, the dashboard shows a total balance,
    a total of loans and a net worth of 0 and no active goal, finishes
    loading and writes nothing to the diagnostic log. *)
Theorem dashboard_failed_reads_show_zero :
  forall (u : Auth.User) (now : Date) (q : Queries) (st : State)
         (e1 e2 e3 : string) transactionsRes profileRes,
    allQueries q (Auth.id u)
    = Fulfilled ({| Supabase.data := None; Supabase.error := Some e1 |},
                 transactionsRes,
                 {| Supabase.data := None; Supabase.error := Some e2 |},
                 {| Supabase.data := None; Supabase.error := Some e3 |},
                 profileRes) ->
    let st' := snd (loadDashboardData (Some u) now q st) in
    Data.totalBalance (data st') = zero
    /\ Data.totalLoans (data st') = zero
    /\ netWorth (data st') = zero
    /\ Data.activeGoals (data st') = 0%nat
    /\ console st' = console st
    /\ loading st' = false.
Proof.
  intros u now q st e1 e2 e3 transactionsRes profileRes H.
  unfold loadDashboardData, try_catch_finally, bind.
  rewrite H. simpl. repeat split.
Qed.

Lemma dashboard_failed_reads_show_zero_witness :
  let st' := snd (loadDashboardData (Some sampleUser) march2024
                    failingReads initial) in
  Data.totalBalance (data st') = zero
  /\ Data.totalLoans (data st') = zero
  /\ netWorth (data st') = zero
  /\ Data.activeGoals (data st') = 0%nat
  /\ console st' = console initial
  /\ loading st' = false.
Proof.
  apply (dashboard_failed_reads_show_zero sampleUser march2024 failingReads
           initial "down" "down" "down"
           {| Supabase.data := None; Supabase.error := Some "down" |}
           {| Supabase.data := None; Supabase.error := Some "down" |}).
  reflexivity.
Defined.

(** ** Credit-score view *)

(** X7. The rating of a credit score follows the bands the view prints
    as its legend: Exceptional from 800, Very Good from 740 to 799, Good
    from 670 to 739, Fair from 580 to 669 and Poor below 580; scores
    above 850 are Exceptional and scores below 300 are Poor. *)
Theorem score_rating_bands :
  forall score : Z,
    let l := CreditScore.label (CreditScore.getScoreRating score) in
    (l = "Exceptional" <-> 800 <= score)
    /\ (l = "Very Good" <-> 740 <= score < 800)
    /\ (l = "Good" <-> 670 <= score < 740)
    /\ (l = "Fair" <-> 580 <= score < 670)
    /\ (l = "Poor" <-> score < 580).
Proof.
  intro score. unfold CreditScore.getScoreRating. cbv zeta.
  destruct (Z.leb_spec 800 score);
    [|destruct (Z.leb_spec 740 score);
      [|destruct (Z.leb_spec 670 score);
        [|destruct (Z.leb_spec 580 score)]]];
    cbn [CreditScore.label];
    repeat split; intros; try lia; try discriminate; try reflexivity.
Qed.

Lemma score_rating_bands_witness :
  CreditScore.label (CreditScore.getScoreRating 720) = "Good".
Proof.
  apply (proj2 (proj1 (proj2 (proj2 (score_rating_bands 720))))). lia.
Defined.

(** X8. The score trend is absent exactly when the history has fewer
    than two entries; otherwise its difference is the first score minus
    the second, and it counts as positive exactly when the first score is
    not below the second (an unchanged score is positive). *)
Theorem score_trend_sign :
  forall scores : list CreditScore.CreditScoreEntry,
    (CreditScore.getScoreTrend scores = None
     <-> (List.length scores < 2)%nat)
    /\ (forall latest previous rest,
          scores = latest :: previous :: rest ->
          exists t,
            CreditScore.getScoreTrend scores = Some t
            /\ CreditScore.diff t
               = CreditScore.score latest - CreditScore.score previous
            /\ (CreditScore.isPositive t = true
                <-> CreditScore.score previous <= CreditScore.score latest)).
Proof.
  intro scores. split.
  - destruct scores as [|a [|b rest]]; simpl; split; intro H;
      try reflexivity; try lia; try discriminate.
  - intros latest previous rest ->. eexists. split; [reflexivity|].
    cbn [CreditScore.diff CreditScore.isPositive]. split; [reflexivity|].
    rewrite Z.leb_le. lia.
Qed.

Lemma score_trend_sign_witness :
  exists t,
    CreditScore.getScoreTrend scoreHistory = Some t
    /\ CreditScore.diff t = 720 - 735
    /\ (CreditScore.isPositive t = true <-> 735 <= 720).
Proof.
  apply (proj2 (score_trend_sign scoreHistory)
               (scoreEntry 720 20) (scoreEntry 735 5) []).
  reflexivity.
Defined.

Lemma inject_Z_le (a b : Z) : (inject_Z a <= inject_Z b)%Q <-> a <= b.
Proof. rewrite <- Zle_Qle. reflexivity. Qed.

(** X9. The current score is the score of the first entry of the
    history.  A current score of 0 is treated like a missing score: the
    score panel is not shown and there is no rating; every other score
    gets its rating.  The marker on the scale lies between 0 and 100
    percent exactly for scores from 300 to 850. *)
Theorem score_panel_and_marker :
  forall (entry : CreditScore.CreditScoreEntry)
         (rest : list CreditScore.CreditScoreEntry),
    let s := CreditScore.score entry in
    CreditScore.currentScore (entry :: rest) = Some s
    /\ (s = 0 ->
        CreditScore.truthy (CreditScore.currentScore (entry :: rest)) = false
        /\ CreditScore.rating (entry :: rest) = None)
    /\ (s <> 0 ->
        CreditScore.truthy (CreditScore.currentScore (entry :: rest)) = true
        /\ CreditScore.rating (entry :: rest)
           = Some (CreditScore.getScoreRating s))
    /\ (between 0 100 (CreditScore.markerLeft s) <-> 300 <= s <= 850)
    /\ CreditScore.markerLeft 300 =n= Finite 0
    /\ CreditScore.markerLeft 850 =n= Finite 100.
Proof.
  intros entry rest s. split; [reflexivity|].
  unfold CreditScore.rating, CreditScore.truthy.
  cbn [CreditScore.currentScore]. fold s.
  split; [|split; [|split; [|split]]].
  - intros ->. split; reflexivity.
  - intro H. apply Z.eqb_neq in H. rewrite H. split; reflexivity.
  - unfold CreditScore.markerLeft, Number, hundred. simpl.
    rewrite <- (inject_Z_le 300 s), <- (inject_Z_le s 850).
    set (x := inject_Z s).
    assert (E : ((x + - (300)) / 550 * 550 == x + - (300))%Q)
      by (apply Qdiv_times; discriminate).
    set (r := ((x + - (300)) / 550)%Q) in *.
    change (inject_Z 300) with 300%Q. change (inject_Z 850) with 850%Q.
    split; intros [H1 H2]; split; lra.
  - vm_compute. reflexivity.
  - vm_compute. reflexivity.
Qed.

Lemma score_panel_and_marker_witness :
  CreditScore.rating scoreHistory = Some (CreditScore.getScoreRating 720)
  /\ between 0 100 (CreditScore.markerLeft 720).
Proof.
  destruct (score_panel_and_marker (scoreEntry 720 20) [scoreEntry 735 5])
    as (_ & _ & Hnz & Hmark & _).
  split.
  - apply Hnz. simpl. discriminate.
  - apply Hmark. simpl. lia.
Defined.

(** ** Transactions view *)

(** X10. The filter of the transactions view shows every transaction
    for the filter "all"; for another filter it shows exactly the
    transactions of that type, in the order of the list.  When every
    transaction is an income or an expense, the income and the expense
    views together have as many rows as the list. *)
Theorem filtered_transactions_partition :
  forall (transactions : list Transactions.Transaction),
    Transactions.filteredTransactions transactions "all" = transactions
    /\ (forall (filterType : string) (t : Transactions.Transaction),
          filterType <> "all" ->
          (In t (Transactions.filteredTransactions transactions filterType)
           <-> In t transactions
               /\ Transactions.transaction_type t = filterType))
    /\ (forall (filterType : string) (x y : Transactions.Transaction),
          JSArray.precedes x y
            (Transactions.filteredTransactions transactions filterType) ->
          JSArray.precedes x y transactions)
    /\ ((forall t, In t transactions ->
           Transactions.transaction_type t = "income"
           \/ Transactions.transaction_type t = "expense") ->
        (List.length (Transactions.filteredTransactions transactions "income")
         + List.length
             (Transactions.filteredTransactions transactions "expense")
         = List.length transactions)%nat).
Proof.
  intro transactions. unfold Transactions.filteredTransactions.
  split; [|split; [|split]].
  - cbn [String.eqb Ascii.eqb Bool.eqb andb orb].
    induction transactions as [|t ts IH]; simpl; [reflexivity|].
    now f_equal.
  - intros filterType t Hne. rewrite filter_In.
    apply String.eqb_neq in Hne. rewrite Hne. cbn [orb].
    now rewrite String.eqb_eq.
  - intros filterType x y. apply precedes_filter.
  - intro Hty. induction transactions as [|t ts IH]; [reflexivity|].
    assert (Hts : forall t', In t' ts ->
                    Transactions.transaction_type t' = "income"
                    \/ Transactions.transaction_type t' = "expense")
      by (intros t' H'; apply Hty; now right).
    specialize (IH Hts). cbn [filter].
    destruct (Hty t (or_introl eq_refl)) as [E|E]; rewrite E;
      cbn [String.eqb Ascii.eqb Bool.eqb andb orb List.length];
      simpl in IH |- *; lia.
Qed.

Lemma filtered_transactions_partition_witness :
  (List.length (Transactions.filteredTransactions mixedMonth "income")
   + List.length (Transactions.filteredTransactions mixedMonth "expense")
   = List.length mixedMonth)%nat.
Proof.
  apply (proj2 (proj2 (proj2 (filtered_transactions_partition mixedMonth)))).
  intros t [<-|[<-|[<-|[]]]]; simpl; tauto.
Defined.

(** ** Dashboard: cards, chart and recent rows *)

Lemma monthsBefore_zero (now : Date) :
  0 <= getMonth now < 12 ->
  monthsBefore now 0 = (getFullYear now, getMonth now).
Proof.
  intro Hm. unfold monthsBefore, monthIndex. rewrite Z.sub_0_r.
  rewrite Z.add_comm, Z.div_add by lia. rewrite Z.mod_add by lia.
  rewrite Z.div_small, Z.mod_small by lia. reflexivity.
Qed.

(** X11. For a clock reading with a month number in 0..11 and a year
    outside 0..99, the last entry of the six-month series is the entry
    of the current month: it carries the same income and expenses as the
    monthly income and monthly expenses cards. *)
Theorem chart_last_bar_matches_cards :
  forall (data : option (list Transactions.Transaction)) (now : Date)
         (d : MonthEntry),
    0 <= getMonth now < 12 ->
    ~ (0 <= getFullYear now <= 99) ->
    nth 5 (incomeVsExpenses data now) d
    = {| entry_month := shortName (getMonth now);
         income := monthlyIncome (currentMonthTransactions data now);
         expenses := monthlyExpenses (currentMonthTransactions data now) |}.
Proof.
  intros data now d Hm Hy. rewrite (incomeVsExpenses_series data now Hy).
  cbn [map nth]. rewrite (monthsBefore_zero now Hm). reflexivity.
Qed.

Lemma chart_last_bar_matches_cards_witness :
  nth 5 (incomeVsExpenses (Some mixedMonth) march2024)
        {| entry_month := ""; income := zero; expenses := zero |}
  = {| entry_month := "Mar";
       income :=
         monthlyIncome
           (currentMonthTransactions (Some mixedMonth) march2024);
       expenses :=
         monthlyExpenses
           (currentMonthTransactions (Some mixedMonth) march2024) |}.
Proof.
  apply (chart_last_bar_matches_cards (Some mixedMonth) march2024
           {| entry_month := ""; income := zero; expenses := zero |});
    simpl; lia.
Defined.

(** ** Dashboard: bar widths *)

Lemma fold_max_finite (l : list Q) (x : Q) :
  exists m,
    fold_left Math_max (map Finite l) (Finite x) = Finite m
    /\ In m (x :: l)
    /\ forall y, In y (x :: l) -> (y <= m)%Q.
Proof.
  revert x. induction l as [|a l IH]; intro x; cbn [map fold_left].
  - exists x. split; [reflexivity|]. split; [now left|].
    intros y [<-|[]]. apply Qle_refl.
  - cbn [Math_max].
    destruct (IH (if Qle_bool x a then a else x)) as (m & E & Hin & Hmax).
    exists m. split; [exact E|]. split.
    + destruct Hin as [<-|Hin].
      * destruct (Qle_bool x a); [right; now left|now left].
      * right. now right.
    + assert (Hx : (x <= (if Qle_bool x a then a else x))%Q
                   /\ (a <= (if Qle_bool x a then a else x))%Q).
      { destruct (Qle_bool x a) eqn:L.
        - apply Qle_bool_imp_le in L. split; [exact L|apply Qle_refl].
        - split; [apply Qle_refl|].
          destruct (Qlt_le_dec a x) as [H|H]; [now apply Qlt_le_weak|].
          apply (proj2 (Qle_bool_iff _ _)) in H. congruence. }
      intros y [<-|[<-|Hy]].
      * apply (Qle_trans _ _ _ (proj1 Hx)). apply Hmax. now left.
      * apply (Qle_trans _ _ _ (proj2 Hx)). apply Hmax. now left.
      * apply Hmax. now right.
Qed.

Lemma max_of_finite (x : Q) (l : list Q) :
  exists m,
    Math_max_of (map Finite (x :: l)) = Finite m
    /\ In m (x :: l)
    /\ forall y, In y (x :: l) -> (y <= m)%Q.
Proof. unfold Math_max_of. cbn [map fold_left Math_max]. apply fold_max_finite. Qed.

(** The share [value / largest * 100] of a finite value. *)
Lemma share_finite (q m : Q) :
  (0 < m)%Q ->
  ((Finite q / Finite m) * hundred)%js = Finite (q / m * 100).
Proof.
  intro Hm. unfold hundred. simpl.
  rewrite Qeq_bool_false; [reflexivity|].
  intro E. rewrite E in Hm. discriminate Hm.
Qed.

Lemma share_bounds (q m : Q) :
  (0 < m)%Q -> (0 <= q)%Q -> (q <= m)%Q ->
  (0 <= q / m * 100)%Q /\ (q / m * 100 <= 100)%Q.
Proof.
  intros Hm H0 H1.
  assert (E : (q / m * m == q)%Q)
    by (apply Qdiv_times; intro Z; rewrite Z in Hm; discriminate Hm).
  set (r := (q / m)%Q) in *. split; nra.
Qed.

Lemma sumAmount_nonneg (ts : list Transactions.Transaction) :
  (forall t, In t ts -> (0 <= Transactions.amount t)%Q) ->
  exists q, sumAmount ts = Finite q /\ (0 <= q)%Q.
Proof.
  intro H. unfold sumAmount, zero. rewrite sumAmount_from.
  eexists. split; [reflexivity|]. apply Qsum_from_nonneg.
  intros x Hx. apply in_map_iff in Hx as (t & <- & Ht). now apply H.
Qed.

Lemma filterData_In (p : Transactions.Transaction -> bool)
  (data : option (list Transactions.Transaction))
  (t : Transactions.Transaction) :
  In t (filterData p data) -> In t (rowsOf data).
Proof.
  destruct data as [rows|]; simpl; [|intros []].
  intro H. apply filter_In in H. apply H.
Qed.

Lemma series_nonneg (data : option (list Transactions.Transaction))
  (now : Date) :
  (forall t, In t (rowsOf data) -> (0 <= Transactions.amount t)%Q) ->
  forall item, In item (incomeVsExpenses data now) ->
    exists i e, income item = Finite i /\ expenses item = Finite e
                /\ (0 <= i)%Q /\ (0 <= e)%Q.
Proof.
  intros H item Hin. unfold incomeVsExpenses in Hin.
  apply in_map_iff in Hin as (m & <- & _). cbn [income expenses].
  destruct (sumAmount_nonneg
              (filter (hasType "income")
                 (filterData (inMonth (monthNum m) (year m)) data)))
    as (i & Ei & Hi).
  { intros t Ht. apply filter_In in Ht as [Ht _].
    apply H. now apply (filterData_In _ _ _ Ht). }
  destruct (sumAmount_nonneg
              (filter (hasType "expense")
                 (filterData (inMonth (monthNum m) (year m)) data)))
    as (e & Ee & He).
  { intros t Ht. apply filter_In in Ht as [Ht _].
    apply H. now apply (filterData_In _ _ _ Ht). }
  exists i, e. repeat split; assumption.
Qed.

(** The values of a list of entries, when all of them are finite. *)
Lemma finite_values {A : Type} (f : A -> number) (l : list A) :
  (forall item, In item l -> exists q, f item = Finite q) ->
  exists qs, map f l = map Finite qs
             /\ forall item q, In item l -> f item = Finite q -> In q qs.
Proof.
  induction l as [|a l IH]; intro H.
  - exists []. split; [reflexivity|]. intros item q [].
  - destruct (H a (or_introl eq_refl)) as [q Eq].
    destruct IH as (qs & E & Hin).
    { intros item Hi. apply H. now right. }
    exists (q :: qs). cbn [map]. rewrite Eq, E. split; [reflexivity|].
    intros item r [<-|Hitem] Er.
    + left. congruence.
    + right. now apply (Hin item).
Qed.



Lemma Qsum_from_pos (l : list Q) (a : Q) :
  (0 <= a)%Q -> l <> [] -> (forall x, In x l -> (0 < x)%Q) ->
  (0 < fold_left Qplus l a)%Q.
Proof.
  intros Ha Hne Hpos. destruct l as [|x l]; [contradiction|]. simpl.
  apply (Qlt_le_trans _ (a + x)).
  - assert (Hx : (0 < x)%Q) by (apply Hpos; now left). lra.
  - apply Qsum_from_nonneg. intros y Hy. apply Qlt_le_weak, Hpos. now right.
Qed.

Lemma categorySum_pos (c : string) (ts : list Transactions.Transaction) :
  (forall t, In t ts -> (0 < Transactions.amount t)%Q) ->
  In c (map Transactions.category ts) ->
  (0 < categorySum c ts)%Q.
Proof.
  intros Hpos Hin. unfold categorySum.
  apply in_map_iff in Hin as (t & Ec & Ht).
  apply Qsum_from_pos.
  - apply Qle_refl.
  - intro E.
    assert (Hf : In (Transactions.amount t)
                   (map Transactions.amount
                      (filter (fun t0 => String.eqb (Transactions.category t0) c)
                              ts))).
    { apply in_map. apply filter_In. split; [exact Ht|].
      now apply String.eqb_eq. }
    rewrite E in Hf. destruct Hf.
  - intros x Hx. apply in_map_iff in Hx as (t' & <- & Ht').
    apply filter_In in Ht' as [Ht' _]. now apply Hpos.
Qed.

Lemma groups_positive (ts : list Transactions.Transaction)
  (g : CategoryTotal) :
  (forall t, In t ts -> (0 < Transactions.amount t)%Q) ->
  In g (groupByCategory ts) ->
  exists q, total g = Finite q /\ (0 < q)%Q.
Proof.
  intros Hpos Hg.
  pose proof (groupByCategory_totals ts g Hg) as E.
  assert (Hc : In (cat g) (map Transactions.category ts)).
  { apply firstSeen_In. rewrite <- groupByCategory_cats. now apply in_map. }
  pose proof (categorySum_pos (cat g) ts Hpos Hc) as P.
  destruct (total g) as [q| | |]; simpl in E; try contradiction.
  exists q. split; [reflexivity|]. now rewrite E.
Qed.

Lemma In_firstn {A : Type} (n : nat) (x : A) (l : list A) :
  In x (firstn n l) -> In x l.
Proof.
  intro H. rewrite <- (firstn_skipn n l). apply in_or_app. now left.
Qed.



(** ** Savings rate *)

Lemma savingsRate_positive_income (i e : Q) :
  (0 < i)%Q ->
  savingsRate (Number i) (Number e) = Finite ((i - e) / i * 100).
Proof.
  intro Hi. unfold savingsRate, Number, zero, hundred. simpl.
  rewrite (Qlt_bool_true _ _ Hi). simpl.
  rewrite Qeq_bool_false; [reflexivity|].
  intro Z. rewrite Z in Hi. exact (Qlt_irrefl _ Hi).
Qed.

(** X15. With a positive monthly income, the savings rate is at most 100
    when the expenses are not negative, it is not negative exactly when
    the expenses do not exceed the income, and it is 100 when there are
    no expenses. *)
Theorem savings_rate_bounds :
  forall i e : Q,
    (0 < i)%Q ->
    ((0 <= e)%Q -> le (savingsRate (Number i) (Number e)) (Finite 100))
    /\ ((e <= i)%Q <-> le zero (savingsRate (Number i) (Number e)))
    /\ ((e == 0)%Q -> savingsRate (Number i) (Number e) =n= Finite 100).
Proof.
  intros i e Hi. rewrite (savingsRate_positive_income i e Hi).
  assert (E : ((i - e) / i * i == i - e)%Q)
    by (apply Qdiv_times; intro Z; rewrite Z in Hi; discriminate Hi).
  set (r := ((i - e) / i)%Q) in *. unfold zero. cbn [le num_eq].
  split; [|split].
  - intro He. nra.
  - split; intro H; nra.
  - intro H. nra.
Qed.

Lemma savings_rate_bounds_witness :
  le (savingsRate (Number 100) (Number 10)) (Finite 100)
  /\ le zero (savingsRate (Number 100) (Number 10)).
Proof.
  assert (Hi : (0 < 100)%Q) by reflexivity.
  destruct (savings_rate_bounds 100 10 Hi) as (H1 & H2 & _).
  split.
  - apply H1. discriminate.
  - apply (proj1 H2). discriminate.
Defined.

(** ** Advisor: keywords and replies *)

Lemma reply_injective (r r' : Chat.rule) :
  Chat.reply r = Chat.reply r' -> r = r'.
Proof. destruct r, r'; intro H; try reflexivity; discriminate H. Qed.

Lemma reply_not_fallback (r : Chat.rule) :
  Chat.reply r <> Chat.fallbackReply.
Proof. destruct r; discriminate. Qed.

Lemma first_match_rule (userMessage : string) (r : Chat.rule) :
  Chat.generateAIResponse userMessage = Chat.reply r
  <-> find (Chat.matches (toLowerCase userMessage)) Chat.priority = Some r.
Proof.
  rewrite generateAIResponse_firstMatch. unfold Chat.firstMatchReply.
  destruct (find _ Chat.priority) as [r0|] eqn:E.
  - split; intro H.
    + f_equal. now apply reply_injective.
    + now injection H as ->.
  - split; intro H; [|discriminate H].
    symmetry in H. now apply reply_not_fallback in H.
Qed.

(** X16. The replies of the responder are pairwise different, so a
    reply identifies the rule that produced it: the reply of a rule is
    returned exactly when that rule is the first that matches, and the
    fallback reply exactly when no rule matches.  In particular the
    thanks reply is only returned for a message that contains "thank" and
    does not contain "hi" anywhere, not even inside a word. *)
Theorem reply_identifies_rule :
  forall userMessage : string,
    let lowerMessage := toLowerCase userMessage in
    (forall r : Chat.rule,
        Chat.generateAIResponse userMessage = Chat.reply r
        <-> find (Chat.matches lowerMessage) Chat.priority = Some r)
    /\ (Chat.generateAIResponse userMessage = Chat.fallbackReply
        <-> forall r : Chat.rule, Chat.matches lowerMessage r = false)
    /\ (Chat.generateAIResponse userMessage = Chat.thanksReply ->
        includes lowerMessage "hi" = false
        /\ includes lowerMessage "thank" = true).
Proof.
  intros userMessage lowerMessage.
  split; [intro r; apply first_match_rule|].
  assert (Hall : forall r : Chat.rule, In r Chat.priority)
    by (intro r; destruct r; simpl; tauto).
  split.
  - rewrite generateAIResponse_firstMatch. unfold Chat.firstMatchReply.
    fold lowerMessage.
    destruct (find _ Chat.priority) as [r0|] eqn:E.
    + split; intro H.
      * now apply reply_not_fallback in H.
      * apply find_some in E. rewrite (H r0) in E. destruct E as [_ E].
        discriminate E.
    + split; [|reflexivity]. intros _ r.
      apply (find_none _ _ E r (Hall r)).
  - intro H. apply (first_match_rule userMessage Chat.Thanks) in H.
    fold lowerMessage in H. revert H.
    cbv [Chat.priority Chat.matches Chat.keywords find existsb].
    repeat match goal with
           | |- context [includes lowerMessage ?k] =>
               destruct (includes lowerMessage k); cbn [orb];
               try discriminate
           end.
    intros _. split; reflexivity.
Qed.

Lemma reply_identifies_rule_witness :
  Chat.generateAIResponse "thanks for this" = Chat.reply Chat.Greeting.
Proof.
  apply (proj1 (reply_identifies_rule "thanks for this") Chat.Greeting).
  reflexivity.
Defined.

Lemma prefix_app (a b s : string) :
  String.prefix (a ++ b) s = true -> String.prefix a s = true.
Proof.
  revert s. induction a as [|c a IH]; intros s H; [now destruct s|].
  destruct s as [|d s]; [discriminate H|]. cbn in H |- *.
  destruct (Ascii.ascii_dec c d); [now apply IH|discriminate H].
Qed.

Lemma includes_shorter_keyword (s a b : string) :
  includes s (a ++ b) = true -> includes s a = true.
Proof.
  induction s as [|c s IH]; cbn [includes]; rewrite !orb_true_iff.
  - intros [H|H]; [left; now apply (prefix_app a b)|discriminate H].
  - intros [H|H]; [left; now apply (prefix_app a b)|right; now apply IH].
Qed.

Lemma prefix_extend (k s post : string) :
  String.prefix k s = true -> String.prefix k (s ++ post) = true.
Proof.
  revert s. induction k as [|c k IH]; intros s H.
  - now destruct (s ++ post)%string.
  - destruct s as [|d s]; [discriminate H|]. cbn in H |- *.
    destruct (Ascii.ascii_dec c d); [now apply IH|discriminate H].
Qed.

Lemma includes_extend_r (s post k : string) :
  includes s k = true -> includes (s ++ post) k = true.
Proof.
  induction s as [|c s IH]; cbn [includes]; rewrite orb_true_iff.
  - intros [H|H]; [|discriminate H].
    destruct k; [|discriminate H]. cbn. now destruct post.
  - intros [H|H]; cbn [append includes]; rewrite orb_true_iff.
    + left. now apply (prefix_extend k (String c s) post).
    + right. now apply IH.
Qed.

Lemma includes_extend_l (pre s k : string) :
  includes s k = true -> includes (pre ++ s) k = true.
Proof.
  intro H. induction pre as [|c pre IH]; [exact H|].
  cbn [append includes]. rewrite IH. apply orb_true_r.
Qed.

Lemma toLowerCase_app (a b : string) :
  toLowerCase (a ++ b) = (toLowerCase a ++ toLowerCase b)%string.
Proof.
  induction a as [|c a IH]; [reflexivity|]. cbn. now rewrite IH.
Qed.

Lemma lowerChar_idempotent (c : ascii) : lowerChar (lowerChar c) = lowerChar c.
Proof. destruct c as [[] [] [] [] [] [] [] []]; reflexivity. Qed.

Lemma toLowerCase_idempotent (s : string) :
  toLowerCase (toLowerCase s) = toLowerCase s.
Proof.
  induction s as [|c s IH]; [reflexivity|]. cbn.
  now rewrite lowerChar_idempotent, IH.
Qed.

(** X17. The responder does not distinguish upper and lower case: a
    message and its lower-cased form get the same reply, and so do two
    messages that differ in case only. *)
Theorem advisor_ignores_case :
  forall m m' : string,
    Chat.generateAIResponse (toLowerCase m) = Chat.generateAIResponse m
    /\ (toLowerCase m = toLowerCase m' ->
        Chat.generateAIResponse m = Chat.generateAIResponse m').
Proof.
  intros m m'. unfold Chat.generateAIResponse. cbv zeta. split.
  - now rewrite toLowerCase_idempotent.
  - now intros ->.
Qed.

Lemma advisor_ignores_case_witness :
  Chat.generateAIResponse "My BUDGET" = Chat.generateAIResponse "my budget".
Proof.
  apply (proj2 (advisor_ignores_case "My BUDGET" "my budget")).
  reflexivity.
Defined.

(** X18. A message that gets the budgeting reply keeps it when any text
    is put before or after it, whatever keywords that text contains. *)
Theorem budget_keyword_wins_in_any_context :
  forall pre m post : string,
    Chat.generateAIResponse m = Chat.budgetReply ->
    Chat.generateAIResponse (pre ++ m ++ post) = Chat.budgetReply.
Proof.
  intros pre m post H.
  apply (first_match_rule m Chat.BudgetSpend) in H.
  apply (first_match_rule (pre ++ m ++ post) Chat.BudgetSpend).
  cbv [Chat.priority find] in H |- *.
  destruct (Chat.matches (toLowerCase m) Chat.BudgetSpend) eqn:E.
  - assert (E' : Chat.matches (toLowerCase (pre ++ m ++ post))
                              Chat.BudgetSpend = true).
    { revert E. unfold Chat.matches. cbn [Chat.keywords existsb].
      rewrite !toLowerCase_app, !orb_true_iff.
      intros [E|[E|E]]; [left|right; left|discriminate E];
        apply includes_extend_l, includes_extend_r, E. }
    now rewrite E'.
  - exfalso.
    repeat match type of H with
           | (if ?b then _ else _) = _ => destruct b; try discriminate H
           end.
Qed.

Lemma budget_keyword_wins_in_any_context_witness :
  Chat.generateAIResponse ("How to save, " ++ "or spend" ++ " on stock?")
  = Chat.budgetReply.
Proof.
  apply (budget_keyword_wins_in_any_context
           "How to save, " "or spend" " on stock?").
  reflexivity.
Defined.

(** X19. The second keyword of the retirement rule never decides: a
    text that contains "retirement" contains "retire", so the test of the
    rule equals the test for "retire" alone.  The second keyword of the
    savings rule is not of this kind: "saving" does not contain "save". *)
Theorem retirement_keyword_is_redundant :
  forall lowerMessage : string,
    (includes lowerMessage "retirement" = true ->
     includes lowerMessage "retire" = true)
    /\ (includes lowerMessage "retire" || includes lowerMessage "retirement"
        = includes lowerMessage "retire")
    /\ includes "saving" "save" = false.
Proof.
  intro s.
  assert (H : includes s "retirement" = true -> includes s "retire" = true)
    by apply (includes_shorter_keyword s "retire" "ment").
  split; [exact H|]. split; [|reflexivity].
  destruct (includes s "retire"); [reflexivity|].
  destruct (includes s "retirement"); [|reflexivity].
  symmetry. now apply H.
Qed.

Lemma retirement_keyword_is_redundant_witness :
  includes "my retirement plan" "retire" = true.
Proof.
  apply (proj1 (retirement_keyword_is_redundant "my retirement plan")).
  reflexivity.
Defined.

(** ** Advisor: sending a message *)

(** X20. [handleSend] does nothing when the input is empty or consists
    of white space only, or when no user is signed in: nothing is stored,
    nothing is logged and the view is unchanged. *)
Theorem blank_message_is_not_sent :
  forall (user : option Auth.User) (accepts : Chat.Message -> option string)
         (s : Chat.State),
    trim (Chat.input s) = "" \/ user = None ->
    Chat.handleSend user accepts s = (Normal tt, s).
Proof.
  intros user accepts s [H| ->]; unfold Chat.handleSend.
  - now rewrite H.
  - now destruct (trim (Chat.input s)).
Qed.

Lemma blank_message_is_not_sent_witness :
  Chat.handleSend (Some sampleUser) (fun _ => None) blankChat
  = (Normal tt, blankChat).
Proof.
  apply blank_message_is_not_sent. left. reflexivity.
Defined.

(** X21. When the store refuses the user's message, [handleSend] stores
    nothing, generates no reply, logs the error and finishes loading, and
    the input field has already been cleared.  When the store accepts
    the user's message and refuses the reply, the user's message stays
    in the store without a reply and the messages shown are not
    reloaded. *)
Theorem failed_send_loses_the_message :
  forall (u : Auth.User) (accepts : Chat.Message -> option string)
         (s : Chat.State) (e : string),
    trim (Chat.input s) <> "" ->
    let userRow := {| Chat.user_id := Auth.id u;
                      Chat.message := trim (Chat.input s);
                      Chat.sender := "user" |} in
    let aiRow := {| Chat.user_id := Auth.id u;
                    Chat.message :=
                      Chat.generateAIResponse (trim (Chat.input s));
                    Chat.sender := "ai" |} in
    (accepts userRow = Some e ->
     Chat.handleSend (Some u) accepts s
     = (Normal tt,
        {| Chat.messages := Chat.messages s;
           Chat.input := "";
           Chat.loading := false;
           Chat.console :=
             Chat.console s ++ [("Error sending message:", e)];
           Chat.chat_conversations := Chat.chat_conversations s |}))
    /\ (accepts userRow = None -> accepts aiRow = Some e ->
        Chat.handleSend (Some u) accepts s
        = (Normal tt,
           {| Chat.messages := Chat.messages s;
              Chat.input := "";
              Chat.loading := false;
              Chat.console :=
                Chat.console s ++ [("Error sending message:", e)];
              Chat.chat_conversations :=
                Chat.chat_conversations s ++ [userRow] |})).
Proof.
  intros u accepts s e Hne userRow aiRow. unfold Chat.handleSend.
  destruct (trim (Chat.input s)) as [|c rest] eqn:E; [contradiction|].
  subst userRow aiRow. split.
  - intro H1.
    cbv [bind try_catch_finally Chat.setInput Chat.setLoading modify
         Chat.insert Chat.throwIfError ret throw Chat.console_error
         Chat.chat_conversations Chat.messages Chat.input Chat.loading
         Chat.console].
    rewrite H1. reflexivity.
  - intros H1 H2.
    cbv [bind try_catch_finally Chat.setInput Chat.setLoading modify
         Chat.insert Chat.throwIfError ret throw Chat.console_error
         Chat.chat_conversations Chat.messages Chat.input Chat.loading
         Chat.console].
    rewrite H1. cbv iota beta. rewrite H2. reflexivity.
Qed.

Lemma failed_send_loses_the_message_witness :
  Chat.handleSend (Some sampleUser) (fun _ => Some "offline") typedChat
  = (Normal tt,
     {| Chat.messages := [];
        Chat.input := "";
        Chat.loading := false;
        Chat.console := [("Error sending message:", "offline")];
        Chat.chat_conversations := [] |}).
Proof.
  apply (proj1 (failed_send_loses_the_message sampleUser
                  (fun _ => Some "offline") typedChat "offline"
                  ltac:(vm_compute; discriminate))).
  reflexivity.
Defined.

(** Without an error of the read, [WithRead.handleSend] is
    [handleSend]. *)
Lemma handleSend_read_ok (user : option Auth.User)
  (accepts : Chat.Message -> option string) (s : Chat.State) :
  Chat.WithRead.handleSend None user accepts s = Chat.handleSend user accepts s.
Proof. reflexivity. Qed.

(** X22. When the store accepts both rows, [handleSend] appends the
    trimmed message and the reply to the store, clears the input and
    finishes loading.  If the read of [loadMessages] that follows
    succeeds, nothing is logged and the messages shown are the rows of
    the user in the store, ending with the message and its reply.  If
    that read fails, the error is logged under "Error loading messages:"
    and the messages shown stay as they were, although both rows are
    stored. *)
Theorem successful_send_shows_the_exchange :
  forall (u : Auth.User) (accepts : Chat.Message -> option string)
         (s : Chat.State),
    trim (Chat.input s) <> "" ->
    let userRow := {| Chat.user_id := Auth.id u;
                      Chat.message := trim (Chat.input s);
                      Chat.sender := "user" |} in
    let aiRow := {| Chat.user_id := Auth.id u;
                    Chat.message :=
                      Chat.generateAIResponse (trim (Chat.input s));
                    Chat.sender := "ai" |} in
    accepts userRow = None -> accepts aiRow = None ->
    let mine :=
      filter (fun m => String.eqb (Chat.user_id m) (Auth.id u))
             (Chat.chat_conversations s) in
    Chat.WithRead.handleSend None (Some u) accepts s
    = (Normal tt,
       {| Chat.messages := mine ++ [userRow; aiRow];
          Chat.input := "";
          Chat.loading := false;
          Chat.console := Chat.console s;
          Chat.chat_conversations :=
            Chat.chat_conversations s ++ [userRow; aiRow] |})
    /\ (forall e : string,
          Chat.WithRead.handleSend (Some e) (Some u) accepts s
          = (Normal tt,
             {| Chat.messages := Chat.messages s;
                Chat.input := "";
                Chat.loading := false;
                Chat.console :=
                  Chat.console s ++ [("Error loading messages:", e)];
                Chat.chat_conversations :=
                  Chat.chat_conversations s ++ [userRow; aiRow] |})).
Proof.
  intros u accepts s Hne userRow aiRow H1 H2 mine.
  unfold Chat.WithRead.handleSend.
  destruct (trim (Chat.input s)) as [|c rest] eqn:E; [contradiction|].
  subst userRow aiRow mine. split; [|intro e].
  - cbv [bind try_catch_finally Chat.setInput Chat.setLoading modify
         Chat.insert Chat.throwIfError ret throw Chat.console_error
         Chat.WithRead.loadMessages try_catch Chat.setMessages
         Chat.chat_conversations Chat.messages Chat.input Chat.loading
         Chat.console].
    rewrite H1. cbv iota beta. rewrite H2. cbv iota beta.
    rewrite <- app_assoc. cbn [app]. rewrite filter_app.
    cbn [filter Chat.user_id]. rewrite String.eqb_refl. reflexivity.
  - cbv [bind try_catch_finally Chat.setInput Chat.setLoading modify
         Chat.insert Chat.throwIfError ret throw Chat.console_error
         Chat.WithRead.loadMessages try_catch Chat.setMessages
         Chat.chat_conversations Chat.messages Chat.input Chat.loading
         Chat.console].
    rewrite H1. cbv iota beta. rewrite H2. cbv iota beta.
    rewrite <- app_assoc. reflexivity.
Qed.

Lemma successful_send_shows_the_exchange_witness :
  Chat.console
    (snd (Chat.WithRead.handleSend (Some "offline") (Some sampleUser)
            (fun _ => None) typedChat))
  = [("Error loading messages:", "offline")]
  /\ Chat.messages
       (snd (Chat.WithRead.handleSend None (Some sampleUser)
               (fun _ => None) typedChat))
     = [ {| Chat.user_id := "1"; Chat.message := "thanks for this";
            Chat.sender := "user" |};
         {| Chat.user_id := "1"; Chat.message := Chat.greetingReply;
            Chat.sender := "ai" |} ].
Proof.
  destruct (successful_send_shows_the_exchange sampleUser (fun _ => None)
              typedChat ltac:(vm_compute; discriminate) eq_refl eq_refl)
    as [Hok Hfail].
  split.
  - rewrite (Hfail "offline"). reflexivity.
  - rewrite Hok. reflexivity.
Defined.

(** ** Authentication context: the session *)

Lemma loading_fold (ops : list Auth.operation) (s : Auth.State) :
  Auth.loading (fold_left Auth.step ops s)
  = Auth.loading s && negb (existsb Auth.isTimer ops).
Proof.
  revert s. induction ops as [|op ops IH]; intro s; cbn [fold_left existsb].
  - now rewrite andb_true_r.
  - rewrite IH. destruct op; cbn; try reflexivity.
    now rewrite andb_false_r.
Qed.

Lemma user_fold (ops : list Auth.operation) (s : Auth.State) (u : Auth.User) :
  Auth.user (fold_left Auth.step ops s) = Some u ->
  Auth.user s = Some u
  \/ exists name, In (Auth.Login name) ops
                  /\ u = {| Auth.id := "1"; Auth.name := name |}.
Proof.
  revert s. induction ops as [|op ops IH]; intros s H; cbn [fold_left] in H.
  - now left.
  - destruct (IH _ H) as [Hs|(name & Hin & E)].
    + destruct op as [name| |]; cbn in Hs.
      * right. exists name. split; [now left|]. now injection Hs as <-.
      * discriminate Hs.
      * now left.
    + right. exists name. split; [now right|exact E].
Qed.

(** X23. After any sequence of operations of the authentication
    context, the loading flag is set exactly when the timer has not fired
    yet (login and logout never change it); a present user carries a name
    that was passed to [login]; after a logout no user is present, and
    after a login the user is the one just logged in. *)
Theorem session_flags :
  forall (ops : list Auth.operation),
    Auth.loading (Auth.run ops) = negb (existsb Auth.isTimer ops)
    /\ (forall u, Auth.user (Auth.run ops) = Some u ->
          exists name, In (Auth.Login name) ops
                       /\ u = {| Auth.id := "1"; Auth.name := name |})
    /\ Auth.user (Auth.run (ops ++ [Auth.Logout])) = None
    /\ (forall name,
          Auth.user (Auth.run (ops ++ [Auth.Login name]))
          = Some {| Auth.id := "1"; Auth.name := name |}).
Proof.
  intro ops. unfold Auth.run. split; [|split; [|split]].
  - now rewrite loading_fold.
  - intros u H. destruct (user_fold ops _ u H) as [H0|H0];
      [discriminate H0|exact H0].
  - now rewrite fold_left_app.
  - intro name. now rewrite fold_left_app.
Qed.

Lemma session_flags_witness :
  exists name,
    In (Auth.Login name) [Auth.Login "bob"; Auth.Login "alice";
                          Auth.TimerFired]
    /\ sampleUser = {| Auth.id := "1"; Auth.name := name |}.
Proof.
  apply (proj1 (proj2 (session_flags [Auth.Login "bob"; Auth.Login "alice";
                                      Auth.TimerFired])) sampleUser).
  reflexivity.
Defined.

(** ** Entity fetchers: every answer *)

(** X24. Whatever the store answers, the loader of the accounts, loans,
    goals and credit-score views returns normally with loading finished,
    and it does one of two things: on a successful read it replaces the
    collection by the rows of the answer (none for a [null] answer) and
    leaves the log as it is; on a failed read it keeps the collection and
    appends one line to the log. *)
Theorem load_never_throws_nor_forgets :
  forall (A : Type) (label : string) (u : Auth.User)
         (q : EntityView.query (A := A)) (st : EntityView.State A),
    exists st',
      EntityView.load label (Some u) q st = (Normal tt, st')
      /\ EntityView.loading st' = false
      /\ ((EntityView.console st' = EntityView.console st
           /\ exists rows,
                q (Auth.id u)
                = Fulfilled {| Supabase.data := rows;
                               Supabase.error := None |}
                /\ EntityView.items st'
                   = match rows with Some r => r | None => [] end)
          \/ (EntityView.items st' = EntityView.items st
              /\ exists e,
                   readFails (q (Auth.id u)) e
                   /\ EntityView.console st'
                      = EntityView.console st ++ [(label, e)])).
Proof.
  intros A label u q st.
  unfold EntityView.load, try_catch_finally, bind.
  destruct (q (Auth.id u)) as [[rows [e|]]|e] eqn:E; cbn.
  - eexists. split; [reflexivity|]. split; [reflexivity|]. right.
    split; [reflexivity|]. exists e. split; [|reflexivity].
    right. now exists rows.
  - eexists. split; [reflexivity|]. split; [reflexivity|]. left.
    split; [reflexivity|]. exists rows. split; reflexivity.
  - eexists. split; [reflexivity|]. split; [reflexivity|]. right.
    split; [reflexivity|]. exists e. split; [|reflexivity]. now left.
Qed.

Lemma load_ok (A : Type) (label : string) (u : Auth.User)
  (q : EntityView.query (A := A)) (st : EntityView.State A) (rows : list A) :
  q (Auth.id u) = ok rows ->
  EntityView.load label (Some u) q st
  = (Normal tt,
     {| EntityView.items := rows; EntityView.loading := false;
        EntityView.console := EntityView.console st |}).
Proof.
  intro H. unfold EntityView.load, try_catch_finally, bind.
  rewrite H. reflexivity.
Qed.

(** X25. A successful load replaces whatever an earlier load, failed or
    not, left in the view by the rows of the answer and logs nothing;
    loading the same answer again changes nothing. *)
Theorem reload_replaces_the_collection :
  forall (A : Type) (label : string) (u : Auth.User)
         (q1 q2 : EntityView.query (A := A)) (st : EntityView.State A)
         (rows : list A),
    q2 (Auth.id u) = ok rows ->
    let st1 := snd (EntityView.load label (Some u) q1 st) in
    let st2 := snd (EntityView.load label (Some u) q2 st1) in
    EntityView.items st2 = rows
    /\ EntityView.loading st2 = false
    /\ EntityView.console st2 = EntityView.console st1
    /\ snd (EntityView.load label (Some u) q2 st2) = st2.
Proof.
  intros A label u q1 q2 st rows H st1 st2. subst st2.
  rewrite !(load_ok A label u q2 _ rows H). cbn. repeat split.
Qed.

Lemma reload_replaces_the_collection_witness :
  EntityView.items
    (snd (Accounts.loadAccounts (Some sampleUser) (fun _ => ok [sampleAccount])
            (snd (Accounts.loadAccounts (Some sampleUser)
                    (fun _ => failed "network down") EntityView.initial))))
  = [sampleAccount].
Proof.
  apply (proj1 (reload_replaces_the_collection Accounts.Account
                  "Error loading accounts:" sampleUser
                  (fun _ => failed "network down")
                  (fun _ => ok [sampleAccount])
                  EntityView.initial [sampleAccount] eq_refl)).
Defined.
